(** * The code execution primitive of [execute.py]

    A shallow embedding of [backend/docker-containers/python/execute.py]:
    the [CodeExecutor] class ([__init__], [execute_code], [cleanup]) and
    [main].  The program is effectful from top to bottom (environment,
    standard input and output, temporary directories, files, child
    processes, the clock), so it is written in a state-and-exception monad
    over an explicit [World]; what the operating system and the Python
    library decide on their own (which name [mkdtemp] draws, whether a
    write fails, what the child prints, whether it finishes in time, what
    the clock reads) is supplied by a [Platform]. *)

From Stdlib Require Import ZArith String Ascii Floats Lia.
From stdpp Require Import base option gmap sets list strings pretty.

Local Open Scope Z_scope.
Local Open Scope string_scope.

#[local] Set Warnings "-register-all".

(** ** Python values *)

(** The values that travel through the program: what [json.loads] can
    return and what [json.dumps] is given.  A [dict] keeps its insertion
    order, as Python's does.  A [str] is a Rocq string, one character per
    code point (code points below 256); an [int] is unbounded; a [float]
    is an IEEE 754 binary64 number. *)
Inductive pyval : Type :=
  | PNone
  | PBool (b : bool)
  | PInt (z : Z)
  | PFloat (f : float)
  | PStr (s : string)
  | PList (l : list pyval)
  | PDict (d : list (string * pyval)).

(** Truth value testing ([if not code]). *)
Definition truthy (v : pyval) : bool :=
  match v with
  | PNone => false
  | PBool b => b
  | PInt z => negb (z =? 0)%Z
  | PFloat f => negb (PrimFloat.eqb f 0%float)
  | PStr s => negb (String.eqb s "")
  | PList l => match l with [] => false | _ => true end
  | PDict d => match d with [] => false | _ => true end
  end.

(** [type(v).__name__], as it appears in the messages of [AttributeError]
    and [TypeError]. *)
Definition type_name (v : pyval) : string :=
  match v with
  | PNone => "NoneType"
  | PBool _ => "bool"
  | PInt _ => "int"
  | PFloat _ => "float"
  | PStr _ => "str"
  | PList _ => "list"
  | PDict _ => "dict"
  end.

(** Lookup of a key in a [dict]. *)
Fixpoint dict_lookup (k : string) (d : list (string * pyval)) : option pyval :=
  match d with
  | [] => None
  | (k', v) :: d' => if String.eqb k k' then Some v else dict_lookup k d'
  end.

(** ** Exceptions *)

(** An exception is its class and the text [str(e)] gives.  The faults
    modelled are the instances of [Exception] that the operations raise
    themselves; [except Exception] and a bare [except:] catch them all. *)
Record exn : Type := Exn { exc_class : string; exc_msg : string }.

Inductive outcome (A : Type) : Type :=
  | Ok (a : A)
  | Raise (e : exn).
Arguments Ok {A} a.
Arguments Raise {A} e.

(** ** Strings of the Python library *)

(** [str.isspace] on one character, for the code points below 256. *)
Definition is_space (c : ascii) : bool :=
  let n := nat_of_ascii c in
  ((9 <=? n) && (n <=? 13) || (28 <=? n) && (n <=? 32)
   || (n =? 133) || (n =? 160))%nat.

Fixpoint lstrip (s : string) : string :=
  match s with
  | String c s' => if is_space c then lstrip s' else s
  | EmptyString => EmptyString
  end.

(** [rstrip] keeps a character when it is not a space or when something
    is kept after it. *)
Fixpoint rstrip (s : string) : string :=
  match s with
  | String c s' =>
      match rstrip s' with
      | EmptyString => if is_space c then EmptyString else String c EmptyString
      | r => String c r
      end
  | EmptyString => EmptyString
  end.

(** [str.strip()]. *)
Definition py_strip (s : string) : string := rstrip (lstrip s).

Definition hex_digit (n : nat) : ascii :=
  ascii_of_nat (if (n <? 10)%nat then 48 + n else 87 + n)%nat.

(** Characters [repr] writes as they are: the printable ones. *)
Definition is_printable (c : ascii) : bool :=
  let n := nat_of_ascii c in
  negb ((n <? 32) || (127 <=? n) && (n <=? 160) || (n =? 173))%nat.

Fixpoint contains_char (c : ascii) (s : string) : bool :=
  match s with
  | EmptyString => false
  | String c' s' => Ascii.eqb c c' || contains_char c s'
  end.

Fixpoint repr_body (q : ascii) (s : string) : string :=
  match s with
  | EmptyString => EmptyString
  | String c s' =>
      let n := nat_of_ascii c in
      (if Ascii.eqb c "\" then "\\"
       else if Ascii.eqb c q then String "\" (String q EmptyString)
       else if (n =? 9)%nat then "\t"
       else if (n =? 10)%nat then "\n"
       else if (n =? 13)%nat then "\r"
       else if is_printable c then String c EmptyString
       else String "\" (String "x" (String (hex_digit (n / 16))
              (String (hex_digit (n mod 16)) EmptyString))))
      ++ repr_body q s'
  end.

(** [repr(s)] of a [str]: single quotes, unless the text has a single
    quote and no double quote. *)
Definition py_repr (s : string) : string :=
  let q : ascii :=
    if contains_char "'" s && negb (contains_char "034" s) then "034"%char
    else "'"%char in
  String q (repr_body q s ++ String q EmptyString).

Definition is_digit (c : ascii) : bool :=
  let n := nat_of_ascii c in ((48 <=? n) && (n <=? 57))%nat.

(** The characters [int] skips around a literal: those of C's
    [isspace], and the white space above 127, which [int] first turns
    into a blank (the separators 28 to 31 are not among them). *)
Definition int_space (c : ascii) : bool :=
  let n := nat_of_ascii c in
  ((9 <=? n) && (n <=? 13) || (n =? 32) || (n =? 133) || (n =? 160))%nat.

Fixpoint skip_int_spaces (s : string) : string :=
  match s with
  | String c s' => if int_space c then skip_int_spaces s' else s
  | EmptyString => EmptyString
  end.

(** The run of digits and underscores at the head of [s]: the number of
    digits, their value, and what follows the run; nothing when two
    underscores meet or the run ends on an underscore.  [prev_us] tells
    whether the previous character was an underscore. *)
Fixpoint scan_digits (prev_us : bool) (count acc : Z) (s : string)
    : option (Z * Z * string) :=
  match s with
  | EmptyString => if prev_us then None else Some (count, acc, s)
  | String c s' =>
      if is_digit c
      then scan_digits false (count + 1)
             (10 * acc + Z.of_nat (nat_of_ascii c - 48)) s'
      else if Ascii.eqb c "_"
           then if prev_us then None else scan_digits true count acc s'
           else if prev_us then None else Some (count, acc, s)
  end.

(** The number of digits up to which [int] does not look at the limit
    on the length of a literal. *)
Definition int_digits_threshold : Z := 640.

(** The first [n] characters of [s] (the precision of [%.200R]). *)
Fixpoint take_chars (n : nat) (s : string) : string :=
  match n, s with
  | S n', String c s' => String c (take_chars n' s')
  | _, _ => EmptyString
  end.

(** The literal after the white space and the sign: no underscore in
    front, a run of digits, at least one digit, not more digits than the
    limit [limit] of the interpreter when there is one (0 stands for
    none), and only white space after the run.  The limit is looked at
    when the run has been scanned, before what follows it. *)
Definition int_literal (limit : Z) (orig ds : string) : outcome Z :=
  let bad := Raise (Exn "ValueError"
               ("invalid literal for int() with base 10: "
                ++ take_chars 200 (py_repr orig))) in
  match ds with
  | String "_" _ => bad
  | _ =>
      match scan_digits false 0 0 ds with
      | None => bad
      | Some (count, n, rest) =>
          if (count =? 0)%Z then bad
          else if (int_digits_threshold <? count)%Z && (0 <? limit)%Z
                  && (limit <? count)%Z
          then Raise (Exn "ValueError"
                 ("Exceeds the limit (" ++ pretty limit
                  ++ " digits) for integer string conversion: value has "
                  ++ pretty count ++ " digits; use sys.set_int_max_str_digits() "
                  ++ "to increase the limit"))
          else match skip_int_spaces rest with
               | EmptyString => Ok n
               | _ => bad
               end
      end
  end.

(** [int(s)] for a [str] in base 10, as CPython 3.11 reads it: white
    space is skipped, one sign is taken, then comes the literal. *)
Definition py_int (limit : Z) (s : string) : outcome Z :=
  match skip_int_spaces s with
  | String "-" ds => match int_literal limit s ds with
                     | Ok n => Ok (- n)
                     | Raise e => Raise e
                     end
  | String "+" ds => int_literal limit s ds
  | ds => int_literal limit s ds
  end.

(** [str(n)] of an [int], as an f-string formats it. *)
Definition py_str_int (n : Z) : string := pretty n.

(** [Path(d) / name] and [str] of it, for an absolute directory [d]. *)
Definition path_join (d name : string) : string := d ++ "/" ++ name.

(** ** The world the program runs in *)

(** A child process that has been started and not yet reaped is either
    still running or has ended, with an exit status, and waits to be
    reaped.  (The status of a child ended by a signal is the negated
    signal number, as [Popen.returncode] has it.) *)
Inductive pstate : Type := Running | Ended (status : Z).

(** What the program can observe and change.  [stdin_data] is what
    [sys.stdin.read()] would return now; [stdout] holds, oldest first, the
    objects that [print(json.dumps(d))] wrote (the message is recorded as
    the object [d] it serialises); [dirs] are the directories that exist
    and [files] the text files with their content; [procs] are the child
    processes started and not reaped, [next_pid] counts the children
    started so far; [draws] counts the random names [mkdtemp] has drawn;
    [ended] keeps, for each child reaped, the exit status that was
    collected; [descendants] are the processes that children have
    started themselves and left running; [blocked] tells that the
    program is stuck for ever in a call that does not return (a [wait]
    for a child that never ends), and that what it is said to do
    afterwards never happens. *)
Record World : Type := mkWorld {
  environ : gmap string string;
  stdin_tty : bool;
  stdin_data : outcome string;
  stdout : list pyval;
  dirs : gset string;
  files : gmap string string;
  procs : gmap nat pstate;
  next_pid : nat;
  draws : nat;
  ended : gmap nat Z;
  descendants : gset nat;
  blocked : bool
}.

Definition set_stdin (x : outcome string) (w : World) : World :=
  mkWorld (environ w) (stdin_tty w) x (stdout w) (dirs w) (files w)
          (procs w) (next_pid w) (draws w) (ended w) (descendants w) (blocked w).
Definition set_stdout (x : list pyval) (w : World) : World :=
  mkWorld (environ w) (stdin_tty w) (stdin_data w) x (dirs w) (files w)
          (procs w) (next_pid w) (draws w) (ended w) (descendants w) (blocked w).
Definition set_dirs (x : gset string) (w : World) : World :=
  mkWorld (environ w) (stdin_tty w) (stdin_data w) (stdout w) x (files w)
          (procs w) (next_pid w) (draws w) (ended w) (descendants w) (blocked w).
Definition set_files (x : gmap string string) (w : World) : World :=
  mkWorld (environ w) (stdin_tty w) (stdin_data w) (stdout w) (dirs w) x
          (procs w) (next_pid w) (draws w) (ended w) (descendants w) (blocked w).
Definition set_procs (x : gmap nat pstate) (w : World) : World :=
  mkWorld (environ w) (stdin_tty w) (stdin_data w) (stdout w) (dirs w)
          (files w) x (next_pid w) (draws w) (ended w) (descendants w) (blocked w).
Definition set_next_pid (x : nat) (w : World) : World :=
  mkWorld (environ w) (stdin_tty w) (stdin_data w) (stdout w) (dirs w)
          (files w) (procs w) x (draws w) (ended w) (descendants w) (blocked w).
Definition set_draws (x : nat) (w : World) : World :=
  mkWorld (environ w) (stdin_tty w) (stdin_data w) (stdout w) (dirs w)
          (files w) (procs w) (next_pid w) x (ended w) (descendants w) (blocked w).
Definition set_ended (x : gmap nat Z) (w : World) : World :=
  mkWorld (environ w) (stdin_tty w) (stdin_data w) (stdout w) (dirs w)
          (files w) (procs w) (next_pid w) (draws w) x (descendants w)
          (blocked w).
Definition set_descendants (x : gset nat) (w : World) : World :=
  mkWorld (environ w) (stdin_tty w) (stdin_data w) (stdout w) (dirs w)
          (files w) (procs w) (next_pid w) (draws w) (ended w) x (blocked w).
Definition set_blocked (x : bool) (w : World) : World :=
  mkWorld (environ w) (stdin_tty w) (stdin_data w) (stdout w) (dirs w)
          (files w) (procs w) (next_pid w) (draws w) (ended w)
          (descendants w) x.

(** What [communicate(timeout=t)] finds.  [Finished]: the child ended
    in time and its two streams were read to their end and decoded.
    [ExitedUnread]: the child ended in time with this status, and yet
    [communicate] raised instead of returning: its output is not valid
    text ([UnicodeDecodeError]), or a process it started kept the pipes
    open until the deadline ([TimeoutExpired]).  [Overrun]: the child was
    still running at the deadline.  [CommError]: any other failure, the
    child still running. *)
Inductive comm_result : Type :=
  | Finished (returncode : Z) (out err : string)
  | ExitedUnread (returncode : Z) (e : exn)
  | Overrun
  | CommError (e : exn).

(** What the run of a child has made of the world by the time
    [communicate] returns or gives up: the directories and the files as
    they are then (the child may create, change and delete anything it
    is allowed to, inside the workspace or outside), what is left to
    read on standard input (which the child inherits), and the
    processes it has started and left running. *)
Record child_effect : Type := mkEffect {
  left_dirs : gset string;
  left_files : gmap string string;
  left_stdin : outcome string;
  left_alive : gset nat
}.

(** What [shutil.rmtree(path, ignore_errors=True)] does: removes the
    whole tree; or meets errors that it ignores, and removes what it can
    ([kept] tells, for a path of the tree, whether it is still there
    afterwards); or raises after all, having removed what [kept] does
    not keep. *)
Inductive rm_result : Type :=
  | RmDone
  | RmIgnored (kept : string -> bool)
  | RmRaised (kept : string -> bool) (e : exn).

(** The decisions of the operating system and of the Python library.
    Each may depend on the whole world at the time of the call. *)
Record Platform : Type := mkPlatform {
  (** [json.loads] *)
  json_loads : string -> outcome pyval;
  json_loads_braces : json_loads "{}" = Ok (PDict []);
  (** [sys.executable] *)
  sys_executable : string;
  (** [sys.get_int_max_str_digits()]: 4300 unless the interpreter was
      started with another limit, 0 for none *)
  int_max_str_digits : Z;
  (** [tempfile.gettempdir()] *)
  gettempdir : World -> outcome string;
  (** the random names [mkdtemp] tries, in order *)
  tmp_names : World -> list string;
  (** a failure of [os.mkdir] other than an existing name *)
  mkdir_fault : World -> string -> option exn;
  (** a failure of [open(path, 'w')] in an existing directory *)
  open_fault : World -> string -> option exn;
  (** a failure of [f.write(text)] or of closing the file *)
  write_fault : World -> string -> string -> option exn;
  (** [time.time()] *)
  clock : World -> float;
  (** a failure to start the child: argv, cwd, env *)
  spawn_fault : World -> list string -> string -> gmap string string -> option exn;
  (** the child's run: pid, argv, cwd, env, timeout *)
  child_run : World -> nat -> list string -> string -> gmap string string ->
              Z -> comm_result;
  (** what the child's run leaves behind: pid, argv, cwd, env, timeout *)
  child_leaves : World -> nat -> list string -> string -> gmap string string ->
                 Z -> child_effect;
  (** the status with which a running child ends when it is left
      alone, if it ever ends *)
  child_ends : World -> nat -> option Z;
  (** [shutil.rmtree] on a path *)
  rmtree_result : World -> string -> rm_result
}.

(** ** The monad of the program: state and exceptions *)

Definition M (A : Type) : Type := World -> outcome A * World.

Definition ret {A} (a : A) : M A := fun w => (Ok a, w).
Definition raise {A} (e : exn) : M A := fun w => (Raise e, w).
Definition bind {A B} (m : M A) (k : A -> M B) : M B :=
  fun w => match m w with
           | (Ok a, w') => k a w'
           | (Raise e, w') => (Raise e, w')
           end.
Definition modify (f : World -> World) : M unit := fun w => (Ok tt, f w).
Definition lift {A} (r : outcome A) : M A := fun w => (r, w).

Declare Scope py_scope.
Delimit Scope py_scope with py.
Notation "x <- m ;; k" := (bind m (fun x => k))
  (at level 100, m at next level, right associativity) : py_scope.
Notation "m ;;; k" := (bind m (fun _ => k))
  (at level 100, right associativity) : py_scope.
Local Open Scope py_scope.

(** [try: body / except C as e: handler e], where [catches] tells
    whether the class of the exception is [C] or below it. *)
Definition try_except {A} (body : M A) (catches : exn -> bool)
    (handler : exn -> M A) : M A :=
  fun w => match body w with
           | (Raise e, w') => if catches e then handler e w' else (Raise e, w')
           | r => r
           end.

(** [try: body / finally: fin]: [fin] runs whatever [body] did; its own
    exception, if any, replaces the outcome of [body]. *)
Definition try_finally {A} (body : M A) (fin : M unit) : M A :=
  fun w => match body w with
           | (r, w') => match fin w' with
                        | (Ok _, w'') => (r, w'')
                        | (Raise e, w'') => (Raise e, w'')
                        end
           end.

Definition except_Exception (e : exn) : bool := true.
Definition except_TimeoutExpired (e : exn) : bool :=
  String.eqb (exc_class e) "TimeoutExpired".

(** ** The operations of the Python library that the program calls *)

(** [repr] of a list of [str] (the command in the text of
    [TimeoutExpired]). *)
Fixpoint repr_items (l : list string) : string :=
  match l with
  | [] => ""
  | [x] => py_repr x
  | x :: l' => py_repr x ++ ", " ++ repr_items l'
  end.
Definition repr_list (l : list string) : string := "[" ++ repr_items l ++ "]".

(** A [pathlib.Path] made of a directory and a name in it. *)
Record Path : Type := mkPath { parent : string; name : string }.
Definition path_str (p : Path) : string := path_join (parent p) (name p).

(** [subprocess.CompletedProcess], with captured text streams. *)
Record CompletedProcess : Type := mkCompleted {
  returncode : Z;
  cp_stdout : string;
  cp_stderr : string
}.

(** A [subprocess.Popen] object: the child and what it was started with. *)
Record Popen_obj : Type := mkPopen {
  pid : nat;
  args : list string;
  cwd : string;
  env : gmap string string
}.

Section Library.
Variable P : Platform.

(** [os.environ.get(key, dflt)] *)
Definition environ_get (key dflt : string) : M string :=
  fun w => (Ok (default dflt (environ w !! key)), w).

(** [os.environ.copy()] *)
Definition environ_copy : M (gmap string string) :=
  fun w => (Ok (environ w), w).

(** The loop of [tempfile.mkdtemp]: take the next random name, skip it
    when it exists already, create the directory otherwise. *)
Fixpoint mkdtemp_loop (dir prefix : string) (names : list string) (w : World)
    : outcome string * World :=
  match names with
  | [] => (Raise (Exn "FileExistsError"
             "[Errno 17] No usable temporary directory name found"), w)
  | n :: rest =>
      let file := path_join dir (prefix ++ n) in
      let w1 := set_draws (S (draws w)) w in
      if bool_decide (file ∈ dirs w) || bool_decide (is_Some (files w !! file))
      then mkdtemp_loop dir prefix rest w1
      else match mkdir_fault P w file with
           | Some e => (Raise e, w1)
           | None => (Ok file, set_dirs ({[ file ]} ∪ dirs w1) w1)
           end
  end.

(** [tempfile.mkdtemp(prefix=prefix)] *)
Definition mkdtemp (prefix : string) : M string :=
  fun w => match gettempdir P w with
           | Ok dir => mkdtemp_loop dir prefix (tmp_names P w) w
           | Raise e => (Raise e, w)
           end.

(** [open(p, 'w')]: the file is created or emptied. *)
Definition open_w (p : Path) : M string :=
  fun w =>
    if bool_decide (parent p ∈ dirs w)
    then match open_fault P w (path_str p) with
         | Some e => (Raise e, w)
         | None => (Ok (path_str p), set_files (<[ path_str p := "" ]> (files w)) w)
         end
    else (Raise (Exn "FileNotFoundError"
            ("[Errno 2] No such file or directory: " ++ py_repr (path_str p))), w).

(** [f.write(v)] on a text file, and the close that ends the [with]
    block. *)
Definition file_write (f : string) (v : pyval) : M unit :=
  fun w =>
    match v with
    | PStr s => match write_fault P w f s with
                | Some e => (Raise e, w)
                | None => (Ok tt, set_files (<[ f := s ]> (files w)) w)
                end
    | _ => (Raise (Exn "TypeError"
              ("write() argument must be str, not " ++ type_name v)), w)
    end.

(** [time.time()] *)
Definition time_time : M float := fun w => (Ok (clock P w), w).

(** [Popen(argv, cwd=..., env=..., stdout=PIPE, stderr=PIPE, text=True)] *)
Definition Popen (argv : list string) (dir : string) (e : gmap string string)
    : M Popen_obj :=
  fun w => match spawn_fault P w argv dir e with
           | Some x => (Raise x, w)
           | None =>
               let p := next_pid w in
               (Ok (mkPopen p argv dir e),
                set_next_pid (S p) (set_procs (<[ p := Running ]> (procs w)) w))
           end.

(** The world once the exit status [st] of the child of [pr] has been
    collected: the child leaves the table and its status is kept. *)
Definition collected (st : Z) (pr : Popen_obj) (w : World) : World :=
  set_ended (<[ pid pr := st ]> (ended w))
    (set_procs (delete (pid pr) (procs w)) w).

(** The world once [kill] has returned.  The call polls the child
    first: a child that has ended is reaped and no signal is sent; a
    child that is running is sent SIGKILL and ends, with status -9; a
    child reaped before is left alone. *)
Definition killed (pr : Popen_obj) (w : World) : World :=
  match procs w !! pid pr with
  | Some Running => set_procs (<[ pid pr := Ended (-9) ]> (procs w)) w
  | Some (Ended st) => collected st pr w
  | None => w
  end.

(** The world once [wait] has returned.  A child that has ended is
    reaped.  For a child that is running the call blocks until the child
    ends on its own, and reaps it then; when the child never ends, the
    call never returns and the program is blocked.  A child reaped
    before costs nothing. *)
Definition reaped (pr : Popen_obj) (w : World) : World :=
  match procs w !! pid pr with
  | Some (Ended st) => collected st pr w
  | Some Running =>
      match child_ends P w (pid pr) with
      | Some st => collected st pr w
      | None => set_blocked true w
      end
  | None => w
  end.

(** The world as the run of the child has left it when [communicate]
    returns or gives up. *)
Definition after_run (pr : Popen_obj) (t : Z) (w : World) : World :=
  let eff := child_leaves P w (pid pr) (args pr) (cwd pr) (env pr) t in
  set_descendants (descendants w ∪ left_alive eff)
    (set_stdin (left_stdin eff)
       (set_files (left_files eff) (set_dirs (left_dirs eff) w))).

(** [process.communicate(timeout=t)].  When the child has ended in
    time and its streams are read to their end, it is reaped; the
    streams are then decoded, and returned, or the decoding error is
    raised.  When the child has ended but its pipes are still open at
    the deadline, it stays to be reaped and [TimeoutExpired] is raised.
    When it is still running at the deadline, it is left running and
    [TimeoutExpired] is raised. *)
Definition communicate (pr : Popen_obj) (t : Z) : M CompletedProcess :=
  fun w =>
    let w1 := after_run pr t w in
    match child_run P w (pid pr) (args pr) (cwd pr) (env pr) t with
    | Finished rc out err => (Ok (mkCompleted rc out err), collected rc pr w1)
    | ExitedUnread rc x =>
        (Raise x, if except_TimeoutExpired x
                  then set_procs (<[ pid pr := Ended rc ]> (procs w1)) w1
                  else collected rc pr w1)
    | Overrun =>
        (Raise (Exn "TimeoutExpired"
           ("Command '" ++ repr_list (args pr) ++ "' timed out after "
            ++ py_str_int t ++ " seconds")), w1)
    | CommError x => (Raise x, w1)
    end.

(** [process.kill()] *)
Definition kill (pr : Popen_obj) : M unit := modify (killed pr).

(** [process.wait()] *)
Definition wait (pr : Popen_obj) : M unit := modify (reaped pr).

(** [subprocess.run(argv, cwd=..., capture_output=True, text=True,
    timeout=t, env=...)]: on [TimeoutExpired] the child is killed and
    waited for, on any other exception it is killed; leaving the [with]
    block waits for it; the exception is raised again. *)
Definition subprocess_run (argv : list string) (dir : string)
    (e : gmap string string) (t : Z) : M CompletedProcess :=
  process <- Popen argv dir e ;;
  try_finally
    (try_except (communicate process t) except_Exception
       (fun x => if except_TimeoutExpired x
                 then (kill process ;;; wait process ;;; raise x)
                 else (kill process ;;; raise x)))
    (wait process).

(** Whether [p] is the directory [path] or lies below it. *)
Definition in_tree (path p : string) : bool :=
  String.eqb p path || String.prefix (path ++ "/") p.

(** The world once the tree at [path] has been removed, except for the
    paths that [kept] keeps: directories and files outside the tree are
    as they were. *)
Definition pruned (kept : string -> bool) (path : string) (w : World) : World :=
  set_files
    (filter (fun kv => negb (in_tree path kv.1) || kept kv.1 = true) (files w))
    (set_dirs
       (filter (fun d => negb (in_tree path d) || kept d = true) (dirs w)) w).

(** The world once the whole tree at [path] is gone: the directory,
    every directory below it and every file below it. *)
Definition removed (path : string) (w : World) : World :=
  pruned (fun _ => false) path w.

(** [shutil.rmtree(path, ignore_errors=True)] *)
Definition rmtree (path : string) : M unit :=
  fun w => match rmtree_result P w path with
           | RmDone => (Ok tt, removed path w)
           | RmIgnored kept => (Ok tt, pruned kept path w)
           | RmRaised kept x => (Raise x, pruned kept path w)
           end.

(** [sys.stdin.isatty()] *)
Definition stdin_isatty : M bool := fun w => (Ok (stdin_tty w), w).

(** [sys.stdin.read()]: everything up to the end of the input, which
    is then used up. *)
Definition stdin_read : M string :=
  fun w => match stdin_data w with
           | Ok s => (Ok s, set_stdin (Ok "") w)
           | Raise x => (Raise x, w)
           end.

(** [print(json.dumps(v))] *)
Definition print_json (v : pyval) : M unit :=
  modify (fun w => set_stdout (stdout w ++ [v]) w).

(** [data.get(key, dflt)] *)
Definition py_get (data : pyval) (key : string) (dflt : pyval) : M pyval :=
  match data with
  | PDict d => ret (default dflt (dict_lookup key d))
  | _ => raise (Exn "AttributeError"
           ("'" ++ type_name data ++ "' object has no attribute 'get'"))
  end.
End Library.

(** ** The program *)

(** The fields of a [CodeExecutor] object. *)
Record CodeExecutor : Type := mkExecutor {
  timeout : Z;
  max_memory : string;
  temp_dir : string
}.

(** The three results [execute_code] builds (lines 43-49, 52-58 and
    61-67 of the source). *)
Definition completed_result (r : CompletedProcess) (execution_time : float) : pyval :=
  PDict [("success", PBool (returncode r =? 0)%Z);
         ("stdout", PStr (cp_stdout r));
         ("stderr", PStr (cp_stderr r));
         ("exit_code", PInt (returncode r));
         ("execution_time", PFloat execution_time)].

Definition timeout_result (t : Z) : pyval :=
  PDict [("success", PBool false);
         ("stdout", PStr "");
         ("stderr", PStr ("Execution timed out after " ++ py_str_int t ++ " seconds"));
         ("exit_code", PInt (-1));
         ("execution_time", PInt (t * 1000))].

Definition error_result (e : exn) : pyval :=
  PDict [("success", PBool false);
         ("stdout", PStr "");
         ("stderr", PStr ("Execution error: " ++ exc_msg e));
         ("exit_code", PInt (-1));
         ("execution_time", PInt 0)].

(** Lines 86-87: what [main] takes from a request object. *)
Definition code_of (d : list (string * pyval)) : pyval :=
  default (PStr "") (dict_lookup "code" d).
Definition test_cases_of (d : list (string * pyval)) : pyval :=
  default (PList []) (dict_lookup "test_cases" d).

(** The two messages of [main] that are not execution results (lines
    90-93 and 102-105). *)
Definition no_code_message : pyval :=
  PDict [("success", PBool false); ("error", PStr "No code provided")].

Definition executor_error_message (e : exn) : pyval :=
  PDict [("success", PBool false);
         ("error", PStr ("Executor error: " ++ exc_msg e))].

Section Program.
Variable P : Platform.

(** [CodeExecutor.__init__] *)
Definition __init__ : M CodeExecutor :=
  s <- environ_get "EXECUTION_TIMEOUT" "30" ;;
  t <- lift (py_int (int_max_str_digits P) s) ;;
  m <- environ_get "MAX_MEMORY" "128m" ;;
  d <- mkdtemp P "execution_" ;;
  ret (mkExecutor t m d).

(** [CodeExecutor.cleanup] *)
Definition cleanup (self : CodeExecutor) : M unit :=
  try_except (rmtree P (temp_dir self)) except_Exception (fun _ => ret tt).

(** Line 21: [Path(self.temp_dir) / 'main.py']. *)
Definition code_file (self : CodeExecutor) : Path :=
  mkPath (temp_dir self) "main.py".

(** Line 33: the command of the child. *)
Definition child_argv (self : CodeExecutor) : list string :=
  [sys_executable P; path_str (code_file self)].

(** Lines 26-27: the environment of the child. *)
Definition child_env (self : CodeExecutor) (environment : gmap string string)
    : gmap string string :=
  <[ "PYTHONPATH" := temp_dir self ]> environment.

(** The inner [try] (lines 31-58), with [start_time] already read: the
    child is run under the timeout. *)
Definition supervised (self : CodeExecutor) (e : gmap string string)
    (start_time : float) : M pyval :=
  try_except
    (result <- subprocess_run P (child_argv self) (temp_dir self) e (timeout self) ;;
     end_time <- time_time P ;;
     let execution_time :=
       PrimFloat.mul (PrimFloat.sub end_time start_time) 1000%float in
     ret (completed_result result execution_time))
    except_TimeoutExpired
    (fun _ => ret (timeout_result (timeout self))).

(** The body of the outer [try] of [execute_code] (lines 20-58). *)
Definition attempt (self : CodeExecutor) (code : pyval) : M pyval :=
  f <- open_w P (code_file self) ;;
  file_write P f code ;;;
  e <- environ_copy ;;
  let e := child_env self e in
  start_time <- time_time P ;;
  supervised self e start_time.

(** The outer [try] with its [except Exception] clause (lines 19-67). *)
Definition guarded (self : CodeExecutor) (code : pyval) : M pyval :=
  try_except (attempt self code) except_Exception
    (fun e => ret (error_result e)).

(** [CodeExecutor.execute_code]: the guarded attempt, and [cleanup] in
    the [finally] clause. *)
Definition execute_code (self : CodeExecutor) (code : pyval) (test_cases : pyval)
    : M pyval :=
  try_finally (guarded self code) (cleanup self).

(** The world [cleanup] leaves: without the workspace when [rmtree]
    removed it, with what [rmtree] kept of it otherwise. *)
Definition cleaned (self : CodeExecutor) (w : World) : World :=
  match rmtree_result P w (temp_dir self) with
  | RmDone => removed (temp_dir self) w
  | RmIgnored kept | RmRaised kept _ => pruned kept (temp_dir self) w
  end.

(** Lines 83-84 of [main]: the request read from the input channel. *)
Definition read_request : M pyval :=
  tty <- stdin_isatty ;;
  input_data <- (if negb tty then stdin_read else ret "{}") ;;
  if negb (String.eqb (py_strip input_data) "")
  then lift (json_loads P input_data)
  else ret (PDict []).

(** [main] *)
Definition main : M unit :=
  try_except
    (data <- read_request ;;
     code <- py_get data "code" (PStr "") ;;
     test_cases <- py_get data "test_cases" (PList []) ;;
     if negb (truthy code)
     then print_json no_code_message
     else (executor <- __init__ ;;
           result <- execute_code executor code test_cases ;;
           print_json result))
    except_Exception
    (fun e => print_json (executor_error_message e)).
End Program.

(** ** The course of an attempt *)

(** What the platform made of one attempt, as far as the caller can
    tell: a fault with its message, the deadline passing, or the child's
    exit status with its two streams. *)
Inductive course : Type :=
  | Faulted (msg : string)
  | TimedOut
  | Exited (rc : Z) (out err : string).

Definition fault_course (e : exn) : course :=
  if except_TimeoutExpired e then TimedOut else Faulted (exc_msg e).

(** The course of the attempt that [execute_code] makes in world [w],
    read off the platform's answers to the operations of lines 22-39 in
    their order: open, write, start the child, wait for it. *)
Definition course_of (P : Platform) (self : CodeExecutor) (code : pyval)
    (w : World) : course :=
  match open_w P (code_file self) w with
  | (Raise e, _) => Faulted (exc_msg e)
  | (Ok f, w1) =>
      match file_write P f code w1 with
      | (Raise e, _) => Faulted (exc_msg e)
      | (Ok _, w2) =>
          match Popen P (child_argv P self) (temp_dir self)
                  (child_env self (environ w2)) w2 with
          | (Raise e, _) => fault_course e
          | (Ok pr, w3) =>
              match child_run P w3 (pid pr) (args pr) (cwd pr) (env pr)
                      (timeout self) with
              | Finished rc out err => Exited rc out err
              | Overrun => TimedOut
              | ExitedUnread _ e | CommError e => fault_course e
              end
          end
      end
  end.

(** The four fields of a result that do not measure time. *)
Definition verdict (r : pyval) : list (option pyval) :=
  match r with
  | PDict d => map (fun k => dict_lookup k d)
                 ["success"; "stdout"; "stderr"; "exit_code"]
  | _ => []
  end.

(** ** Concrete platforms and worlds *)

Module Scenario.

Definition nl : string := String "010" EmptyString.
Definition quoted (s : string) : string :=
  String "034" (s ++ String "034" EmptyString).

(** The request texts [{"code": "<src>"}] and the same with a
    [test_cases] array. *)
Definition request (src : string) : string :=
  "{" ++ quoted "code" ++ ": " ++ quoted src ++ "}".
Definition request_with_tests (src : string) : string :=
  "{" ++ quoted "code" ++ ": " ++ quoted src ++ ", "
      ++ quoted "test_cases" ++ ": [1]}".

Definition hello : string := "print('hi')".
Definition exit2 : string := "import sys; sys.exit(2)".
Definition spin : string := "while True: pass".
Definition where_am_i : string := "import os; print(os.getcwd())".

(** More programs: one that writes a byte that is not UTF-8; one that
    starts a process of its own, which inherits the pipes, and ends at
    once; one that starts a process of its own and sleeps; one that
    writes a file outside the workspace; one that makes a directory in
    the workspace and a file in it. *)
Definition garbage : string := "import sys; sys.stdout.buffer.write(b'\xff')".
Definition orphan : string := "import subprocess; subprocess.Popen(['sleep', '3600'])".
Definition nanny : string :=
  "import subprocess, time; subprocess.Popen(['sleep', '3600']); time.sleep(3600)".
Definition litter : string := "open('/tmp/note', 'w').write('x')".
Definition nest : string := "import os; os.mkdir('sub'); open('sub/x', 'w').write('1')".

Definition programs : list string :=
  [hello; exit2; spin; where_am_i; garbage; orphan; nanny; litter; nest].
Definition not_utf8 : exn :=
  Exn "UnicodeDecodeError"
    "'utf-8' codec can't decode byte 0xff in position 0: invalid start byte".

(** A decoder that knows the requests above, [{}] and [[]], and rejects
    every other text. *)
Definition loads (s : string) : outcome pyval :=
  if String.eqb s "{}" then Ok (PDict [])
  else if String.eqb s "[]" then Ok (PList [])
  else match List.find (fun c => String.eqb s (request c)) programs with
       | Some c => Ok (PDict [("code", PStr c)])
       | None =>
           match List.find (fun c => String.eqb s (request_with_tests c)) programs with
           | Some c => Ok (PDict [("code", PStr c); ("test_cases", PList [PInt 1])])
           | None => Raise (Exn "JSONDecodeError"
                       "Expecting value: line 1 column 1 (char 0)")
           end
       end.

(** An interpreter that knows the programs above: it reads the script
    named on its command line and behaves as Python does on it. *)
Definition interpret (w : World) (p : nat) (argv : list string) (dir : string)
    (e : gmap string string) (t : Z) : comm_result :=
  match argv with
  | [_; script] =>
      match files w !! script with
      | Some src =>
          if String.eqb src hello then Finished 0 ("hi" ++ nl) ""
          else if String.eqb src exit2 then Finished 2 "" ""
          else if String.eqb src spin then Overrun
          else if String.eqb src where_am_i then Finished 0 (dir ++ nl) ""
          else if String.eqb src garbage then ExitedUnread 0 not_utf8
          else if String.eqb src orphan
          then ExitedUnread 0
                 (Exn "TimeoutExpired"
                    ("Command '" ++ repr_list argv ++ "' timed out after "
                     ++ py_str_int t ++ " seconds"))
          else if String.eqb src nanny then Overrun
          else Finished 0 "" ""
      | None => Finished 2 "" ("can't open file " ++ py_repr script)
      end
  | _ => Finished 2 "" ""
  end.

(** What the run of each program leaves: [orphan] and [nanny] leave
    the process they started, [litter] its file, [nest] its directory
    and the file in it, the others nothing; none reads standard
    input. *)
Definition leaves (w : World) (p : nat) (argv : list string) (dir : string)
    (e : gmap string string) (t : Z) : child_effect :=
  match argv with
  | [_; script] =>
      match files w !! script with
      | Some src =>
          if String.eqb src nanny || String.eqb src orphan
          then mkEffect (dirs w) (files w) (stdin_data w) {[ 4242%nat ]}
          else if String.eqb src nest
          then mkEffect ({[ dir ++ "/sub" ]} ∪ dirs w)
                 (<[ dir ++ "/sub/x" := "1" ]> (files w)) (stdin_data w) ∅
          else if String.eqb src litter
          then mkEffect (dirs w) (<[ "/tmp/note" := "x" ]> (files w))
                 (stdin_data w) ∅
          else mkEffect (dirs w) (files w) (stdin_data w) ∅
      | None => mkEffect (dirs w) (files w) (stdin_data w) ∅
      end
  | _ => mkEffect (dirs w) (files w) (stdin_data w) ∅
  end.

(** A platform on which nothing fails except what the three arguments
    say: the fault of [os.mkdir], the fault of starting a child, and what
    [rmtree] does.  The names [mkdtemp] draws follow the number of draws
    so far; the clock advances with the number of children started. *)
Definition posix (mk sp : option exn) (rm : rm_result) : Platform :=
  mkPlatform loads eq_refl
    "/usr/local/bin/python3"
    4300
    (fun _ => Ok "/tmp")
    (fun w => [pretty (draws w); pretty (S (draws w))])
    (fun _ _ => mk)
    (fun _ _ => None)
    (fun _ _ _ => None)
    (fun w => if (next_pid w =? 0)%nat then 1000%float else 1000.5%float)
    (fun _ _ _ _ => sp)
    interpret
    leaves
    (fun _ _ => None)
    (fun _ _ => rm).

Definition plain : Platform := posix None None RmDone.

(** The world at the start of the program: the given environment
    variables, the given text piped to standard input, nothing else. *)
Definition start (vars : list (string * string)) (input : string) : World :=
  mkWorld (list_to_map vars) false (Ok input) [] ∅ ∅ ∅ 0 0 ∅ ∅ false.

(** A terminal on standard input. *)
Definition at_terminal (vars : list (string * string)) : World :=
  mkWorld (list_to_map vars) true (Ok "") [] ∅ ∅ ∅ 0 0 ∅ ∅ false.

(** An executor as the constructor makes it on [plain] in a fresh
    world, and the world the constructor leaves. *)
Definition box : CodeExecutor := mkExecutor 30 "128m" "/tmp/execution_0".
Definition prepared : World :=
  mkWorld ∅ false (Ok "") [] {[ "/tmp/execution_0" ]} ∅ ∅ 0 1 ∅ ∅ false.

(** The same after one child has been started and reaped. *)
Definition prepared_later : World :=
  mkWorld ∅ false (Ok "") [] {[ "/tmp/execution_0" ]} ∅ ∅ 1 1 {[ 0%nat := 0 ]} ∅
    false.

(** A text of [n] times the character [c]. *)
Fixpoint repeat_char (n : nat) (c : ascii) : string :=
  match n with
  | O => EmptyString
  | S n' => String c (repeat_char n' c)
  end.

Definition bad_abc : exn :=
  Exn "ValueError" "invalid literal for int() with base 10: 'abc'".

End Scenario.

(** ** Stages of an attempt *)

(** The attempt of [execute_code] in world [w] got as far as a running
    child [pr]: the source file was opened and written, which gave world
    [w2] (where [start_time] is read), and the child was started, which
    gave world [w3]. *)
Inductive started (P : Platform) (self : CodeExecutor) (code : pyval) (w : World)
    : Popen_obj -> World -> World -> Prop :=
  | started_intro f w1 w2 pr w3 :
      open_w P (code_file self) w = (Ok f, w1) ->
      file_write P f code w1 = (Ok tt, w2) ->
      Popen P (child_argv P self) (temp_dir self)
        (child_env self (environ w2)) w2 = (Ok pr, w3) ->
      started P self code w pr w2 w3.


(** The verdict that goes with a course, under timeout [t]. *)
Definition verdict_of (t : Z) (c : course) : list (option pyval) :=
  match c with
  | Faulted msg => verdict (error_result (Exn "" msg))
  | TimedOut => verdict (timeout_result t)
  | Exited rc out err => verdict (completed_result (mkCompleted rc out err) 0%float)
  end.

(** ** What a call leaves behind *)

(** World [w'] has the environment, the output channel and the count
    of draws of [w]: what no child can change. *)
Definition same_but_procs (w w' : World) : Prop :=
  environ w' = environ w /\ stdin_tty w' = stdin_tty w /\
  stdout w' = stdout w /\ draws w' = draws w.

(** Between [w] and [w'] at most one child was started, and it is no
    longer in the table of processes. *)
Definition child_gone (w w' : World) : Prop :=
  (procs w' = procs w /\ next_pid w' = next_pid w)
  \/ (procs w' = delete (next_pid w) (procs w) /\ next_pid w' = S (next_pid w)).

(** The form of every result of [execute_code]: the five keys in their
    order, [success] a boolean that is true exactly when [exit_code] is
    0, the two streams text, [execution_time] a float or an int. *)
Definition is_result (res : pyval) : Prop :=
  exists (b : bool) (out err : string) (rc : Z) (t : pyval),
    res = PDict [("success", PBool b); ("stdout", PStr out);
                 ("stderr", PStr err); ("exit_code", PInt rc);
                 ("execution_time", t)]
    /\ b = (rc =? 0)%Z
    /\ ((exists x, t = PFloat x) \/ (exists n, t = PInt n)).

(** The form of the messages of [main] that are not results of
    [execute_code]. *)
Definition is_top_level_error (m : pyval) : Prop :=
  exists msg, m = PDict [("success", PBool false); ("error", PStr msg)].

(** What the attempt leaves: the environment and the channels as they
    were, at most one child started and gone, and the program no more
    blocked than it was. *)
Definition touched_by (w w' : World) : Prop :=
  same_but_procs w w' /\ child_gone w w' /\ blocked w' = blocked w.

(** The exit status that is collected for the child of a run: its own
    when it ended in time, that of the kill otherwise. *)
Definition run_status (r : comm_result) : Z :=
  match r with
  | Finished rc _ _ | ExitedUnread rc _ => rc
  | Overrun | CommError _ => -9
  end.

(** * Properties *)

(** ** The monad *)

Lemma bind_Ok {A B} (m : M A) (k : A -> M B) w a w' :
  m w = (Ok a, w') -> bind m k w = k a w'.
Proof. intros H; unfold bind; now rewrite H. Qed.

Lemma bind_Raise {A B} (m : M A) (k : A -> M B) w e w' :
  m w = (Raise e, w') -> bind m k w = (Raise e, w').
Proof. intros H; unfold bind; now rewrite H. Qed.

Lemma try_except_Ok {A} (m : M A) c h w a w' :
  m w = (Ok a, w') -> try_except m c h w = (Ok a, w').
Proof. intros H; unfold try_except; now rewrite H. Qed.

Lemma try_except_Raise {A} (m : M A) c h w e w' :
  m w = (Raise e, w') ->
  try_except m c h w = if c e then h e w' else (Raise e, w').
Proof. intros H; unfold try_except; now rewrite H. Qed.

Lemma try_finally_Ok {A} (m : M A) fin w r w' w'' :
  m w = (r, w') -> fin w' = (Ok tt, w'') -> try_finally m fin w = (r, w'').
Proof. intros H1 H2; unfold try_finally; now rewrite H1, H2. Qed.

(** ** The library operations *)

Section LibraryFacts.
Variable P : Platform.

(** [subprocess.run] when the child cannot be started. *)
Lemma subprocess_run_spawn_fault argv dir e t w x w' :
  Popen P argv dir e w = (Raise x, w') ->
  subprocess_run P argv dir e t w = (Raise x, w').
Proof. intros H. unfold subprocess_run. now rewrite (bind_Raise _ _ _ _ _ H). Qed.

(** Starting a child: its number is the count of children so far, and
    it enters the table of processes as running. *)
Lemma Popen_Ok argv dir e w pr w3 :
  Popen P argv dir e w = (Ok pr, w3) ->
  pid pr = next_pid w /\ args pr = argv /\ cwd pr = dir /\ env pr = e /\
  w3 = set_next_pid (S (next_pid w)) (set_procs (<[ next_pid w := Running ]> (procs w)) w).
Proof.
  unfold Popen. destruct (spawn_fault P w argv dir e); intros H; inversion H; subst.
  cbn. auto.
Qed.

(** Waiting for a child, by its state. *)
Lemma reaped_ended pr w st :
  procs w !! pid pr = Some (Ended st) -> reaped P pr w = collected st pr w.
Proof. intros H. unfold reaped. now rewrite H. Qed.

Lemma reaped_absent pr w : procs w !! pid pr = None -> reaped P pr w = w.
Proof. intros H. unfold reaped. now rewrite H. Qed.

(** Killing a child, by its state. *)
Lemma killed_running pr w :
  procs w !! pid pr = Some Running ->
  killed pr w = set_procs (<[ pid pr := Ended (-9) ]> (procs w)) w.
Proof. intros H. unfold killed. now rewrite H. Qed.

Lemma killed_ended pr w st :
  procs w !! pid pr = Some (Ended st) -> killed pr w = collected st pr w.
Proof. intros H. unfold killed. now rewrite H. Qed.

Lemma killed_absent pr w : procs w !! pid pr = None -> killed pr w = w.
Proof. intros H. unfold killed. now rewrite H. Qed.

(** A child whose status has been collected is no longer in the table;
    the state it had in the table does not matter. *)
Lemma collected_procs st pr w :
  procs (collected st pr w) !! pid pr = None.
Proof. cbn. apply lookup_delete_eq. Qed.

Lemma collected_marked st st' pr w :
  collected st pr (set_procs (<[ pid pr := st' ]> (procs w)) w)
  = collected st pr w.
Proof.
  unfold collected, set_ended, set_procs. cbn.
  now rewrite delete_insert_eq.
Qed.

(** A running child that is killed and then waited for: the status
    collected is that of the kill. *)
Lemma kill_then_wait pr w :
  procs w !! pid pr = Some Running ->
  reaped P pr (killed pr w) = collected (-9) pr w.
Proof.
  intros H. rewrite (killed_running _ _ H).
  rewrite (reaped_ended _ _ (-9)) by (cbn; apply lookup_insert_eq).
  apply collected_marked.
Qed.

(** [subprocess.run] never waits for a child that is running: once
    [kill] has returned the child is not running, and when
    [communicate] has returned the streams the child is reaped. *)
Lemma killed_not_running pr w : procs (killed pr w) !! pid pr <> Some Running.
Proof.
  unfold killed. destruct (procs w !! pid pr) as [[|st]|] eqn:H; cbn.
  - rewrite lookup_insert_eq. discriminate.
  - rewrite lookup_delete_eq. discriminate.
  - rewrite H. discriminate.
Qed.

Lemma communicate_Ok_reaped pr t w cp w' :
  communicate P pr t w = (Ok cp, w') -> procs w' !! pid pr = None.
Proof.
  unfold communicate.
  destruct (child_run P w (pid pr) (args pr) (cwd pr) (env pr) t);
    intros H; inversion H; subst. apply collected_procs.
Qed.

(** [subprocess.run] in full, once the child is started: its outcome is
    what [communicate] found, and the world it leaves is the one the
    child's run left, with the child reaped and its status collected:
    its own status when it ended in time, that of the kill otherwise. *)
Lemma subprocess_run_started argv dir e t w pr w3 :
  Popen P argv dir e w = (Ok pr, w3) ->
  subprocess_run P argv dir e t w
  = (match child_run P w3 (pid pr) (args pr) (cwd pr) (env pr) t with
     | Finished rc out err => Ok (mkCompleted rc out err)
     | ExitedUnread _ x | CommError x => Raise x
     | Overrun =>
         Raise (Exn "TimeoutExpired"
           ("Command '" ++ repr_list (args pr) ++ "' timed out after "
            ++ py_str_int t ++ " seconds"))
     end,
     collected (run_status (child_run P w3 (pid pr) (args pr) (cwd pr) (env pr) t))
       pr (after_run P pr t w3)).
Proof.
  intros Hp. unfold subprocess_run. rewrite (bind_Ok _ _ _ _ _ Hp).
  assert (Hrun : procs (after_run P pr t w3) !! pid pr = Some Running).
  { destruct (Popen_Ok _ _ _ _ _ _ Hp) as (Hpid & _ & _ & _ & ->).
    cbn. rewrite Hpid. apply lookup_insert_eq. }
  unfold try_finally, try_except, communicate, wait, kill, modify, bind, raise.
  set (w1 := after_run P pr t w3) in *.
  assert (Hgone : forall st, reaped P pr (collected st pr w1) = collected st pr w1).
  { intros st. apply reaped_absent, collected_procs. }
  assert (Hgone' : forall st, killed pr (collected st pr w1) = collected st pr w1).
  { intros st. apply killed_absent, collected_procs. }
  destruct (child_run P w3 (pid pr) (args pr) (cwd pr) (env pr) t)
    as [rc out err|rc x| |x]; cbn [run_status except_Exception].
  - now rewrite Hgone.
  - destruct (except_TimeoutExpired x) eqn:Hx; cbn; rewrite ?Hx.
    + change (procs w3) with (procs w1).
      rewrite (killed_ended _ _ rc) by (cbn; apply lookup_insert_eq).
      rewrite collected_marked. now rewrite !Hgone.
    + now rewrite Hgone', Hgone.
  - cbn. rewrite (kill_then_wait _ _ Hrun). now rewrite Hgone.
  - destruct (except_TimeoutExpired x) eqn:Hx; cbn; rewrite ?Hx.
    + rewrite (kill_then_wait _ _ Hrun). now rewrite Hgone.
    + now rewrite (kill_then_wait _ _ Hrun).
Qed.



(** [rmtree] in full. *)
Lemma rmtree_cases path w :
  rmtree P path w
  = match rmtree_result P w path with
    | RmDone => (Ok tt, removed path w)
    | RmIgnored kept => (Ok tt, pruned kept path w)
    | RmRaised kept x => (Raise x, pruned kept path w)
    end.
Proof. reflexivity. Qed.

(** What is left of a tree that has been pruned, and of the rest. *)
Lemma pruned_dirs kept path w p :
  p ∈ dirs (pruned kept path w)
  <-> p ∈ dirs w /\ (in_tree path p = false \/ kept p = true).
Proof.
  cbn. rewrite elem_of_filter.
  destruct (in_tree path p), (kept p); cbn; intuition congruence.
Qed.

Lemma pruned_files kept path w p :
  files (pruned kept path w) !! p
  = if negb (in_tree path p) || kept p then files w !! p else None.
Proof.
  cbn. rewrite map_lookup_filter.
  destruct (files w !! p) as [s|]; cbn; [|now destruct (negb _ || _)].
  destruct (negb (in_tree path p) || kept p) eqn:E.
  - now rewrite option_guard_True.
  - rewrite option_guard_False; [reflexivity|]. cbn. congruence.
Qed.

Lemma in_tree_root path : in_tree path path = true.
Proof. unfold in_tree. now rewrite String.eqb_refl. Qed.

End LibraryFacts.

(** ** The executor *)

Section ExecutorFacts.
Variable P : Platform.

(** [cleanup] returns normally whatever [rmtree] does. *)
Lemma cleanup_cases self w : cleanup P self w = (Ok tt, cleaned P self w).
Proof.
  unfold cleanup, try_except, cleaned. rewrite rmtree_cases.
  now destruct (rmtree_result P w (temp_dir self)).
Qed.

Lemma cleaned_frame self w :
  environ (cleaned P self w) = environ w /\ stdout (cleaned P self w) = stdout w /\
  procs (cleaned P self w) = procs w /\ next_pid (cleaned P self w) = next_pid w /\
  draws (cleaned P self w) = draws w /\ stdin_data (cleaned P self w) = stdin_data w.
Proof. unfold cleaned. now destruct (rmtree_result P w (temp_dir self)). Qed.

Lemma cleaned_ghosts self w :
  ended (cleaned P self w) = ended w /\
  descendants (cleaned P self w) = descendants w /\
  stdin_tty (cleaned P self w) = stdin_tty w /\
  blocked (cleaned P self w) = blocked w.
Proof. unfold cleaned. now destruct (rmtree_result P w (temp_dir self)). Qed.

(** The guarded attempt never raises. *)
Lemma guarded_total self code w :
  exists res w1, guarded P self code w = (Ok res, w1).
Proof.
  unfold guarded, try_except.
  destruct (attempt P self code w) as [[r|e] w1]; cbn; eauto.
Qed.

(** [execute_code] is the guarded attempt followed by [cleanup]. *)
Lemma execute_code_guarded self code tc w res w1 :
  guarded P self code w = (Ok res, w1) ->
  execute_code P self code tc w = (Ok res, cleaned P self w1).
Proof.
  intros H. unfold execute_code.
  exact (try_finally_Ok _ _ _ _ _ _ H (cleanup_cases self w1)).
Qed.

(** A fault of the attempt becomes the error result. *)
Lemma guarded_fault self code w e w1 :
  attempt P self code w = (Raise e, w1) ->
  guarded P self code w = (Ok (error_result e), w1).
Proof. intros H. unfold guarded. now rewrite (try_except_Raise _ _ _ _ _ _ H). Qed.

Lemma guarded_Ok self code w r w1 :
  attempt P self code w = (Ok r, w1) -> guarded P self code w = (Ok r, w1).
Proof. intros H. unfold guarded. now rewrite (try_except_Ok _ _ _ _ _ _ H). Qed.

(** Once the source file is written the attempt is the supervised run. *)
Lemma attempt_written self code w f w1 w2 :
  open_w P (code_file self) w = (Ok f, w1) ->
  file_write P f code w1 = (Ok tt, w2) ->
  attempt P self code w
  = supervised P self (child_env self (environ w2)) (clock P w2) w2.
Proof.
  intros H1 H2. unfold attempt.
  rewrite (bind_Ok _ _ _ _ _ H1), (bind_Ok _ _ _ _ _ H2). reflexivity.
Qed.

Lemma attempt_open_fault self code w e w1 :
  open_w P (code_file self) w = (Raise e, w1) ->
  attempt P self code w = (Raise e, w1).
Proof. intros H. unfold attempt. now rewrite (bind_Raise _ _ _ _ _ H). Qed.

Lemma attempt_write_fault self code w f w1 e w2 :
  open_w P (code_file self) w = (Ok f, w1) ->
  file_write P f code w1 = (Raise e, w2) ->
  attempt P self code w = (Raise e, w2).
Proof.
  intros H1 H2. unfold attempt.
  now rewrite (bind_Ok _ _ _ _ _ H1), (bind_Raise _ _ _ _ _ H2).
Qed.

(** The supervised run, case by case. *)
Lemma supervised_spawn_fault self e t0 w x w' :
  Popen P (child_argv P self) (temp_dir self) e w = (Raise x, w') ->
  supervised P self e t0 w
  = if except_TimeoutExpired x then (Ok (timeout_result (timeout self)), w')
    else (Raise x, w').
Proof.
  intros H. unfold supervised.
  rewrite (try_except_Raise _ _ _ _ x w').
  - reflexivity.
  - apply bind_Raise. now apply subprocess_run_spawn_fault.
Qed.

(** The supervised run once the child is started, by what
    [communicate] finds; the world it leaves is in every case the one
    [subprocess.run] leaves. *)
Lemma supervised_started self e t0 w pr w3 :
  Popen P (child_argv P self) (temp_dir self) e w = (Ok pr, w3) ->
  let found := child_run P w3 (pid pr) (args pr) (cwd pr) (env pr) (timeout self) in
  let wf := collected (run_status found) pr (after_run P pr (timeout self) w3) in
  supervised P self e t0 w
  = (match found with
     | Finished rc out err =>
         Ok (completed_result (mkCompleted rc out err)
               (PrimFloat.mul (PrimFloat.sub (clock P wf) t0) 1000%float))
     | Overrun => Ok (timeout_result (timeout self))
     | ExitedUnread _ x | CommError x =>
         if except_TimeoutExpired x then Ok (timeout_result (timeout self))
         else Raise x
     end, wf).
Proof.
  intros Hp. cbv zeta. unfold supervised, try_except, bind.
  rewrite (subprocess_run_started P _ _ _ _ _ _ _ Hp).
  destruct (child_run P w3 (pid pr) (args pr) (cwd pr) (env pr) (timeout self))
    as [rc out err|rc x| |x]; cbn;
    try destruct (except_TimeoutExpired x); reflexivity.
Qed.

End ExecutorFacts.


(** The attempt of a started child, by what the child does. *)
Lemma attempt_started P self code w pr w2 w3 :
  started P self code w pr w2 w3 ->
  attempt P self code w
  = supervised P self (child_env self (environ w2)) (clock P w2) w2
  /\ Popen P (child_argv P self) (temp_dir self)
       (child_env self (environ w2)) w2 = (Ok pr, w3).
Proof.
  intros [f w1 w2' pr' w3' H1 H2 H3]. split; [|exact H3].
  exact (attempt_written P _ _ _ _ _ _ H1 H2).
Qed.

(** ** The claims about [execute_code] *)

(** C1 (as amended).  Whatever the code text and whatever happens to
    the attempt, [execute_code] returns a result and never raises; before
    it returns it runs [cleanup] on the world the attempt left, [cleanup]
    itself returns normally whatever [rmtree] does (also when it raises),
    and the result is the one the attempt produced.  [cleanup] touches
    nothing outside the workspace.  When [rmtree] removes the tree, the
    workspace directory and every directory and file below it are gone
    on return; when [rmtree] meets an error that it ignores, or raises,
    what is left of the workspace is what [rmtree] kept. *)
Theorem execute_code_runs_cleanup (P : Platform) (self : CodeExecutor)
    (code test_cases : pyval) (w : World) :
  exists res w1 w2,
    guarded P self code w = (Ok res, w1) /\
    cleanup P self w1 = (Ok tt, w2) /\
    execute_code P self code test_cases w = (Ok res, w2) /\
    (forall p, in_tree (temp_dir self) p = false ->
               (p ∈ dirs w2 <-> p ∈ dirs w1) /\ files w2 !! p = files w1 !! p) /\
    match rmtree_result P w1 (temp_dir self) with
    | RmDone =>
        forall p, in_tree (temp_dir self) p = true ->
                  (p ∉ dirs w2) /\ files w2 !! p = None
    | RmIgnored kept | RmRaised kept _ =>
        forall p, in_tree (temp_dir self) p = true ->
                  (p ∈ dirs w2 <-> p ∈ dirs w1 /\ kept p = true) /\
                  files w2 !! p = (if kept p then files w1 !! p else None)
    end.
Proof.
  destruct (guarded_total P self code w) as (res & w1 & Hg).
  exists res, w1, (cleaned P self w1).
  split; [exact Hg|]. split; [apply cleanup_cases|].
  split; [now apply execute_code_guarded|].
  unfold cleaned, removed.
  destruct (rmtree_result P w1 (temp_dir self)) as [|kept|kept x]; split;
    intros p Hp; rewrite pruned_dirs, pruned_files, Hp; cbn;
    try (destruct (kept p)); intuition congruence.
Qed.


(** C3 (as amended).  When the child ends before the deadline and
    [subprocess.run] returns its exit status and its two streams,
    [execute_code] returns a result whose [success] is the test "exit
    code is 0", whose stdout, stderr and exit code are the child's, and
    whose execution time is the clock reading after the run minus the
    reading before it, times 1000. *)
Theorem execute_code_normal_exit (P : Platform) (self : CodeExecutor)
    (code test_cases : pyval) (w w2 w3 : World) (pr : Popen_obj)
    (rc : Z) (out err : string) :
  started P self code w pr w2 w3 ->
  child_run P w3 (pid pr) (args pr) (cwd pr) (env pr) (timeout self)
    = Finished rc out err ->
  let start_time := clock P w2 in
  let end_time :=
    clock P (subprocess_run P (child_argv P self) (temp_dir self)
               (child_env self (environ w2)) (timeout self) w2).2 in
  (exists w',
     execute_code P self code test_cases w
     = (Ok (PDict [("success", PBool (rc =? 0)%Z);
                   ("stdout", PStr out);
                   ("stderr", PStr err);
                   ("exit_code", PInt rc);
                   ("execution_time",
                    PFloat (PrimFloat.mul (PrimFloat.sub end_time start_time)
                              1000%float))]),
        w'))
  /\ ((rc =? 0)%Z = true <-> rc = 0).
Proof.
  intros Hs Hc. destruct (attempt_started _ _ _ _ _ _ _ Hs) as [Ha Hp].
  cbv zeta. split; [|apply Z.eqb_eq].
  eexists. apply execute_code_guarded, guarded_Ok. rewrite Ha.
  rewrite (subprocess_run_started P _ _ _ _ _ _ _ Hp).
  rewrite (supervised_started P _ _ _ _ _ _ Hp). cbv zeta. rewrite Hc.
  reflexivity.
Qed.



(** The verdict of [execute_code] is the one that goes with the course
    of the attempt. *)
Lemma verdict_by_course (P : Platform) (self : CodeExecutor)
    (code test_cases : pyval) (w : World) :
  exists res w',
    execute_code P self code test_cases w = (Ok res, w') /\
    verdict res = verdict_of (timeout self) (course_of P self code w).
Proof.
  unfold course_of.
  destruct (open_w P (code_file self) w) as [[f|e] w1] eqn:H1.
  2:{ do 2 eexists.
      split; [apply execute_code_guarded, guarded_fault;
              apply attempt_open_fault; exact H1 | reflexivity]. }
  destruct (file_write P f code w1) as [[[]|e] w2] eqn:H2.
  2:{ do 2 eexists.
      split; [apply execute_code_guarded, guarded_fault;
              eapply attempt_write_fault; eassumption | reflexivity]. }
  pose proof (attempt_written P _ _ _ _ _ _ H1 H2) as Ha.
  destruct (Popen P (child_argv P self) (temp_dir self)
              (child_env self (environ w2)) w2) as [[pr|e] w3] eqn:H3.
  2:{ pose proof (supervised_spawn_fault P self _ (clock P w2) _ _ _ H3) as Hs.
      unfold fault_course.
      destruct (except_TimeoutExpired e) eqn:Hc; rewrite <- Ha in Hs;
        do 2 eexists.
      - split; [apply execute_code_guarded, guarded_Ok; exact Hs | reflexivity].
      - split; [apply execute_code_guarded, guarded_fault; exact Hs | reflexivity]. }
  pose proof (supervised_started P self _ (clock P w2) _ _ _ H3) as Hsup.
  cbv zeta in Hsup. rewrite <- Ha in Hsup.
  destruct (child_run P w3 (pid pr) (args pr) (cwd pr) (env pr) (timeout self))
    as [rc out err|rc e| |e] eqn:H4; unfold fault_course;
    try destruct (except_TimeoutExpired e) eqn:Hc; do 2 eexists;
    (split; [apply execute_code_guarded;
             first [apply guarded_Ok; exact Hsup | apply guarded_fault; exact Hsup]
            | reflexivity]).
Qed.

(** C8 (as amended).  Two invocations of [execute_code] on the same
    code, by executors with the same timeout, whose attempts take the
    same course (the same fault message, or a timeout, or the same exit
    code and captured streams) return results with the same [success],
    [stdout], [stderr] and [exit_code]; nothing is said of
    [execution_time]. *)
Theorem same_course_same_verdict (P : Platform) (self1 self2 : CodeExecutor)
    (code tc1 tc2 : pyval) (w1 w2 w1' w2' : World) (r1 r2 : pyval) :
  execute_code P self1 code tc1 w1 = (Ok r1, w1') ->
  execute_code P self2 code tc2 w2 = (Ok r2, w2') ->
  timeout self1 = timeout self2 ->
  course_of P self1 code w1 = course_of P self2 code w2 ->
  verdict r1 = verdict r2.
Proof.
  intros E1 E2 Ht Hc.
  destruct (verdict_by_course P self1 code tc1 w1) as (r1' & ? & E1' & V1).
  destruct (verdict_by_course P self2 code tc2 w2) as (r2' & ? & E2' & V2).
  rewrite E1 in E1'. rewrite E2 in E2'.
  injection E1' as -> _. injection E2' as -> _.
  now rewrite V1, V2, Ht, Hc.
Qed.

(** ** The program around the executor *)

Section MainFacts.
Variable P : Platform.

(** Reading the request only uses up standard input. *)
Lemma read_request_frame w r w1 :
  read_request P w = (r, w1) -> w1 = w \/ w1 = set_stdin (Ok "") w.
Proof.
  unfold read_request, bind, stdin_isatty, stdin_read, lift, ret.
  destruct (stdin_tty w); cbn.
  - rewrite json_loads_braces. intros H; inversion H; auto.
  - destruct (stdin_data w) as [s|e]; [|intros H; inversion H; auto].
    destruct (negb (py_strip s =? "")%string); intros H; inversion H; auto.
Qed.

(** A terminal on standard input gives the empty object. *)
Lemma read_request_tty w :
  stdin_tty w = true -> read_request P w = (Ok (PDict []), w).
Proof.
  intros H. unfold read_request, bind, stdin_isatty, lift. rewrite H. cbn.
  now rewrite json_loads_braces.
Qed.

(** Blank input gives the empty object. *)
Lemma read_request_blank w text :
  stdin_tty w = false -> stdin_data w = Ok text -> py_strip text = "" ->
  read_request P w = (Ok (PDict []), set_stdin (Ok "") w).
Proof.
  intros H1 H2 H3. unfold read_request, bind, stdin_isatty, stdin_read.
  rewrite H1. cbn. rewrite H2, H3. reflexivity.
Qed.

(** Any other input goes through [json.loads]. *)
Lemma read_request_text w text :
  stdin_tty w = false -> stdin_data w = Ok text -> py_strip text <> "" ->
  read_request P w = (json_loads P text, set_stdin (Ok "") w).
Proof.
  intros H1 H2 H3. unfold read_request, bind, stdin_isatty, stdin_read.
  rewrite H1. cbn. rewrite H2.
  destruct (String.eqb_spec (py_strip text) ""); [contradiction|reflexivity].
Qed.

(** The message [main] writes when the request cannot be used. *)
Lemma main_read_fault w e w1 :
  read_request P w = (Raise e, w1) ->
  main P w = (Ok tt, set_stdout (stdout w1 ++ [executor_error_message e]) w1).
Proof.
  intros H. unfold main.
  rewrite (try_except_Raise _ _ _ _ e w1); [reflexivity|].
  now apply bind_Raise.
Qed.

Lemma main_not_dict w v w1 :
  read_request P w = (Ok v, w1) ->
  (forall d, v <> PDict d) ->
  main P w
  = (Ok tt,
     set_stdout (stdout w1 ++ [executor_error_message
        (Exn "AttributeError"
           ("'" ++ type_name v ++ "' object has no attribute 'get'"))]) w1).
Proof.
  intros H Hv. unfold main.
  rewrite (try_except_Raise _ _ _ _
             (Exn "AttributeError"
                ("'" ++ type_name v ++ "' object has no attribute 'get'")) w1);
    [reflexivity|].
  rewrite (bind_Ok _ _ _ _ _ H).
  destruct v; try reflexivity. now destruct (Hv d).
Qed.

(** The rest of [main] once the request is an object [d]. *)
Lemma main_dict w d w1 :
  read_request P w = (Ok (PDict d), w1) ->
  main P w
  = try_except
      (if negb (truthy (code_of d))
       then print_json no_code_message
       else (executor <- __init__ P ;;
             result <- execute_code P executor (code_of d) (test_cases_of d) ;;
             print_json result))
      except_Exception
      (fun e => print_json (executor_error_message e)) w1.
Proof.
  intros H. unfold main, try_except. rewrite (bind_Ok _ _ _ _ _ H).
  reflexivity.
Qed.

Lemma main_no_code w d w1 :
  read_request P w = (Ok (PDict d), w1) ->
  truthy (code_of d) = false ->
  main P w = (Ok tt, set_stdout (stdout w1 ++ [no_code_message]) w1).
Proof.
  intros H Hc. rewrite (main_dict _ _ _ H). unfold try_except. now rewrite Hc.
Qed.

Lemma main_init_fault w d w1 e w2 :
  read_request P w = (Ok (PDict d), w1) ->
  truthy (code_of d) = true ->
  __init__ P w1 = (Raise e, w2) ->
  main P w = (Ok tt, set_stdout (stdout w2 ++ [executor_error_message e]) w2).
Proof.
  intros H Hc Hi. rewrite (main_dict _ _ _ H). rewrite Hc. cbn [negb].
  rewrite (try_except_Raise _ _ _ _ e w2); [reflexivity|].
  now apply bind_Raise.
Qed.

Lemma main_executes w d w1 self w2 res w3 :
  read_request P w = (Ok (PDict d), w1) ->
  truthy (code_of d) = true ->
  __init__ P w1 = (Ok self, w2) ->
  execute_code P self (code_of d) (test_cases_of d) w2 = (Ok res, w3) ->
  main P w = (Ok tt, set_stdout (stdout w3 ++ [res]) w3).
Proof.
  intros H Hc Hi He. rewrite (main_dict _ _ _ H). rewrite Hc. cbn [negb].
  apply try_except_Ok.
  rewrite (bind_Ok _ _ _ _ _ Hi), (bind_Ok _ _ _ _ _ He). reflexivity.
Qed.

(** [main] returns normally, whatever happens. *)
Lemma main_total w : exists w', main P w = (Ok tt, w').
Proof.
  unfold main, try_except.
  match goal with |- context [match ?b w with _ => _ end] =>
    destruct (b w) as [[[]|e] w1] end; cbn; eauto.
Qed.

End MainFacts.

Section InitFacts.
Variable P : Platform.

(** A failed [mkdtemp] creates nothing: only the count of names drawn
    moves. *)
Lemma mkdtemp_loop_Raise dir prefix names w e w' :
  mkdtemp_loop P dir prefix names w = (Raise e, w') ->
  exists n, w' = set_draws n w.
Proof.
  revert w. induction names as [|n names IH]; intros w; cbn.
  - intros H; injection H as _ <-. exists (draws w). now destruct w.
  - destruct (_ || _).
    + intros H. destruct (IH _ H) as [k ->]. now exists k.
    + destruct (mkdir_fault P w _); intros H; inversion H; subst. eauto.
Qed.

Lemma mkdtemp_Raise prefix w e w' :
  mkdtemp P prefix w = (Raise e, w') -> exists n, w' = set_draws n w.
Proof.
  unfold mkdtemp. destruct (gettempdir P w).
  - apply mkdtemp_loop_Raise.
  - intros H; injection H as _ <-. exists (draws w). now destruct w.
Qed.

(** The constructor, step by step. *)
Lemma init_cases w :
  __init__ P w
  = match py_int (int_max_str_digits P)
            (default "30" (environ w !! "EXECUTION_TIMEOUT")) with
    | Raise e => (Raise e, w)
    | Ok t =>
        match mkdtemp P "execution_" w with
        | (Ok d, w') =>
            (Ok (mkExecutor t (default "128m" (environ w !! "MAX_MEMORY")) d), w')
        | (Raise e, w') => (Raise e, w')
        end
    end.
Proof.
  unfold __init__, bind, environ_get, lift, ret.
  destruct (py_int _); [|reflexivity].
  now destruct (mkdtemp P "execution_" w) as [[d|e] w'].
Qed.

(** A constructor that fails creates no workspace and starts nothing. *)
Lemma init_Raise w e w' :
  __init__ P w = (Raise e, w') -> exists n, w' = set_draws n w.
Proof.
  rewrite init_cases. destruct (py_int _).
  - destruct (mkdtemp P "execution_" w) as [[d|x] w1] eqn:Hm;
      intros H; inversion H; subst.
    exact (mkdtemp_Raise _ _ _ _ Hm).
  - intros H; injection H as _ <-. exists (draws w). now destruct w.
Qed.

(** With a timeout that is not an integer the constructor fails at once. *)
Lemma init_bad_timeout w s e :
  environ w !! "EXECUTION_TIMEOUT" = Some s ->
  py_int (int_max_str_digits P) s = Raise e ->
  __init__ P w = (Raise e, w).
Proof. intros H1 H2. rewrite init_cases, H1. cbn. now rewrite H2. Qed.

End InitFacts.

(** ** The claims about [main] *)

Lemma read_request_fields P w r w1 :
  read_request P w = (r, w1) ->
  environ w1 = environ w /\ stdout w1 = stdout w /\ dirs w1 = dirs w /\
  files w1 = files w /\ procs w1 = procs w /\ next_pid w1 = next_pid w /\
  draws w1 = draws w.
Proof.
  intros H. destruct (read_request_frame P _ _ _ H) as [-> | ->];
    repeat split.
Qed.

(** C5.  When the request is an object whose [code] is absent or empty
    (or any other value that counts as false), [main] writes the single
    message "No code provided" and returns; no workspace is created, no
    file written and no child started. *)
Theorem no_code_no_execution (P : Platform) (w w1 : World)
    (d : list (string * pyval)) :
  read_request P w = (Ok (PDict d), w1) ->
  dict_lookup "code" d = None
  \/ (exists v, dict_lookup "code" d = Some v /\ truthy v = false) ->
  exists w',
    main P w = (Ok tt, w') /\
    stdout w' = (stdout w ++ [PDict [("success", PBool false);
                                    ("error", PStr "No code provided")]])%list /\
    dirs w' = dirs w /\ files w' = files w /\ draws w' = draws w /\
    procs w' = procs w /\ next_pid w' = next_pid w.
Proof.
  intros Hr Hc.
  assert (Hf : truthy (code_of d) = false).
  { unfold code_of. destruct Hc as [-> | (v & -> & Hv)]; [reflexivity|exact Hv]. }
  destruct (read_request_fields _ _ _ _ Hr) as (_ & e2 & e3 & e4 & e5 & e6 & e7).
  eexists. split; [exact (main_no_code P _ _ _ Hr Hf)|].
  cbn. rewrite e2. repeat split; assumption.
Qed.

(** C6.  Input from a terminal, and input that is empty or blank, is
    read as the empty object and answered with "No code provided".  A
    text that [json.loads] rejects, or that it reads as something other
    than an object, is answered with one message [{success: false,
    error: "Executor error: ..."}]; no workspace is created and no child
    started.  In every world [main] returns normally. *)
Theorem decoding_is_total (P : Platform) (w : World) :
  (stdin_tty w = true
   \/ (exists text, stdin_tty w = false /\ stdin_data w = Ok text
                    /\ py_strip text = "") ->
   exists w1 w',
     read_request P w = (Ok (PDict []), w1) /\
     main P w = (Ok tt, w') /\
     stdout w' = (stdout w ++ [PDict [("success", PBool false);
                                     ("error", PStr "No code provided")]])%list)
  /\ (forall text e,
        stdin_tty w = false -> stdin_data w = Ok text ->
        py_strip text <> "" -> json_loads P text = Raise e ->
        exists w',
          main P w = (Ok tt, w') /\
          stdout w' = (stdout w ++ [PDict [("success", PBool false);
              ("error", PStr ("Executor error: " ++ exc_msg e))]])%list /\
          dirs w' = dirs w /\ files w' = files w /\ draws w' = draws w /\
          procs w' = procs w /\ next_pid w' = next_pid w)
  /\ (forall text v,
        stdin_tty w = false -> stdin_data w = Ok text ->
        py_strip text <> "" -> json_loads P text = Ok v ->
        (forall d, v <> PDict d) ->
        exists w',
          main P w = (Ok tt, w') /\
          stdout w' = (stdout w ++ [PDict [("success", PBool false);
              ("error", PStr ("Executor error: '" ++ type_name v
                              ++ "' object has no attribute 'get'"))]])%list /\
          dirs w' = dirs w /\ files w' = files w /\ draws w' = draws w /\
          procs w' = procs w /\ next_pid w' = next_pid w)
  /\ (exists w', main P w = (Ok tt, w')).
Proof.
  split; [|split; [|split]].
  - intros Hb.
    assert (Hr : exists w1, read_request P w = (Ok (PDict []), w1)).
    { destruct Hb as [Ht | (text & Ht & Hd & Hs)].
      - eexists. now apply read_request_tty.
      - eexists. exact (read_request_blank P _ _ Ht Hd Hs). }
    destruct Hr as [w1 Hr].
    destruct (read_request_fields _ _ _ _ Hr) as (_ & e2 & _).
    exists w1. eexists. split; [exact Hr|].
    split; [exact (main_no_code P _ _ _ Hr eq_refl)|].
    cbn. now rewrite e2.
  - intros text e Ht Hd Hs Hj.
    pose proof (read_request_text P _ _ Ht Hd Hs) as Hr. rewrite Hj in Hr.
    eexists. split; [exact (main_read_fault P _ _ _ Hr)|].
    cbn. repeat split.
  - intros text v Ht Hd Hs Hj Hv.
    pose proof (read_request_text P _ _ Ht Hd Hs) as Hr. rewrite Hj in Hr.
    eexists. split; [exact (main_not_dict P _ _ _ Hr Hv)|].
    cbn. repeat split.
  - apply main_total.
Qed.


(** C10 (as amended).  When [EXECUTION_TIMEOUT] is set to a text that
    [int] rejects, [main] starts no child and creates no workspace, and
    writes exactly one message of the form [{success: false, error: m}];
    when the request is an object with a non-empty [code], [m] is
    "Executor error: " followed by the message of the fault of [int].
    The executor's timeout and memory limit are what the constructor
    read from the environment, with "30" and "128m" standing in for a
    variable that is unset: when [EXECUTION_TIMEOUT] is unset the timeout
    is 30, and when [MAX_MEMORY] is unset the memory limit is "128m". *)
Theorem bad_timeout_is_reported (P : Platform) (w : World) :
  (forall s e,
     environ w !! "EXECUTION_TIMEOUT" = Some s ->
     py_int (int_max_str_digits P) s = Raise e ->
     exists m w',
       main P w = (Ok tt, w') /\
       stdout w' = (stdout w ++ [PDict [("success", PBool false);
                                        ("error", PStr m)]])%list /\
       dirs w' = dirs w /\ files w' = files w /\ draws w' = draws w /\
       procs w' = procs w /\ next_pid w' = next_pid w /\
       (forall d w1 code,
          read_request P w = (Ok (PDict d), w1) ->
          dict_lookup "code" d = Some code -> truthy code = true ->
          m = "Executor error: " ++ exc_msg e))
  /\ (forall self w',
        __init__ P w = (Ok self, w') ->
        py_int (int_max_str_digits P)
          (default "30" (environ w !! "EXECUTION_TIMEOUT")) = Ok (timeout self) /\
        max_memory self = default "128m" (environ w !! "MAX_MEMORY") /\
        (environ w !! "EXECUTION_TIMEOUT" = None -> timeout self = 30) /\
        (environ w !! "MAX_MEMORY" = None -> max_memory self = "128m")).
Proof.
  split.
  - intros s e Hs He.
    destruct (read_request P w) as [[v|x] w1] eqn:Hr;
      destruct (read_request_fields _ _ _ _ Hr) as (e1 & e2 & e3 & e4 & e5 & e6 & e7).
    2:{ do 2 eexists. split; [exact (main_read_fault P _ _ _ Hr)|].
        cbn. rewrite e2. repeat split; try assumption. intros; discriminate. }
    assert (Hnd : (forall d, v <> PDict d) \/ exists d, v = PDict d).
    { destruct v; try (left; intros; discriminate). right; eauto. }
    destruct Hnd as [Hnd | [d ->]].
    { do 2 eexists. split; [exact (main_not_dict P _ _ _ Hr Hnd)|].
      cbn. rewrite e2. repeat split; try assumption.
      intros d w0 code H. injection H as -> _. now destruct (Hnd d). }
    destruct (truthy (code_of d)) eqn:Hc.
    + assert (Hi : __init__ P w1 = (Raise e, w1)).
      { apply init_bad_timeout with s; [now rewrite e1 | exact He]. }
      do 2 eexists. split; [exact (main_init_fault P _ _ _ _ _ Hr Hc Hi)|].
      cbn. rewrite e2. repeat split; assumption.
    + do 2 eexists. split; [exact (main_no_code P _ _ _ Hr Hc)|].
      cbn. rewrite e2. repeat split; try assumption.
      intros d0 w0 code H Hl Ht. injection H as -> _.
      unfold code_of in Hc. rewrite Hl in Hc. cbn in Hc. congruence.
  - intros self w' Hi. rewrite init_cases in Hi.
    destruct (py_int (int_max_str_digits P)
                (default "30" (environ w !! "EXECUTION_TIMEOUT")))
      as [t|x] eqn:Ht; [|discriminate].
    destruct (mkdtemp P "execution_" w) as [[dd|x] w2]; [|discriminate].
    injection Hi as <- _. cbn. split; [reflexivity|]. split; [reflexivity|]. split.
    + intros Hn. rewrite Hn in Ht. vm_compute in Ht. congruence.
    + intros Hn. now rewrite Hn.
Qed.

(** ** The claims at concrete inputs *)

Import Scenario.

(** The scenarios of the specification, run on the platform [plain]. *)
Example scenario_hello :
  stdout (main plain (start [] (request hello))).2
  = [PDict [("success", PBool true); ("stdout", PStr ("hi" ++ nl));
            ("stderr", PStr ""); ("exit_code", PInt 0);
            ("execution_time", PFloat 500%float)]].
Proof. vm_compute. reflexivity. Qed.

Example scenario_exit2 :
  stdout (main plain (start [] (request exit2))).2
  = [PDict [("success", PBool false); ("stdout", PStr "");
            ("stderr", PStr ""); ("exit_code", PInt 2);
            ("execution_time", PFloat 500%float)]].
Proof. vm_compute. reflexivity. Qed.

Example scenario_spin :
  stdout (main plain (start [("EXECUTION_TIMEOUT", "1")] (request spin))).2
  = [PDict [("success", PBool false); ("stdout", PStr "");
            ("stderr", PStr "Execution timed out after 1 seconds");
            ("exit_code", PInt (-1)); ("execution_time", PInt 1000)]].
Proof. vm_compute. reflexivity. Qed.

(** The constructor on [plain] in a fresh world gives [box] and leaves
    [prepared]. *)
Example scenario_init : __init__ plain (start [] "") = (Ok box, prepared).
Proof. vm_compute. reflexivity. Qed.

(** [int] on texts at the edge of what it accepts: a separator
    character is not white space for it, a non-breaking space is; the
    text quoted in the message stops after 200 characters; a literal of
    more than 4300 digits is refused under the default limit, and read
    when there is no limit. *)
Example int_separator :
  py_int 4300 (String "028" "5")
  = Raise (Exn "ValueError" "invalid literal for int() with base 10: '\x1c5'").
Proof. vm_compute. reflexivity. Qed.

Example int_no_break_space : py_int 4300 (String "160" "5") = Ok 5.
Proof. vm_compute. reflexivity. Qed.

Example int_long_text :
  exists e, py_int 4300 (repeat_char 300 "a") = Raise e
            /\ String.length (exc_msg e) = 240%nat.
Proof. eexists. split; vm_compute; reflexivity. Qed.

Example int_digit_limit :
  (exists n, py_int 4300 (repeat_char 4300 "1") = Ok n)
  /\ py_int 4300 (repeat_char 4301 "1")
     = Raise (Exn "ValueError"
         ("Exceeds the limit (4300 digits) for integer string conversion: "
          ++ "value has 4301 digits; use sys.set_int_max_str_digits() "
          ++ "to increase the limit"))
  /\ (exists n, py_int 0 (repeat_char 4301 "1") = Ok n).
Proof. split; [eexists|split; [|eexists]]; vm_compute; reflexivity. Qed.

(** C1 as stated fails: on a platform where [rmtree] meets an error
    that it ignores and can remove nothing, the workspace that the
    constructor created is still there when [execute_code] has
    returned. *)
Lemma workspace_survives_ignored_error :
  let P := posix None None (RmIgnored (fun _ => true)) in
  exists self w1 res w2,
    __init__ P (start [] "") = (Ok self, w1) /\
    temp_dir self ∈ dirs w1 /\
    execute_code P self (PStr hello) (PList []) w1 = (Ok res, w2) /\
    temp_dir self ∈ dirs w2.
Proof.
  cbv zeta. do 4 eexists.
  split; [vm_compute; reflexivity|].
  split; [apply (bool_decide_unpack _); vm_compute; exact I|].
  split; [vm_compute; reflexivity|].
  apply (bool_decide_unpack _); vm_compute; exact I.
Qed.


(** C3 (as amended) on the platform [plain]: the program [hello]. *)
Lemma execute_code_normal_exit_witness :
  exists w',
    execute_code plain box (PStr hello) (PList []) prepared
    = (Ok (PDict [("success", PBool true);
                  ("stdout", PStr ("hi" ++ nl));
                  ("stderr", PStr "");
                  ("exit_code", PInt 0);
                  ("execution_time", PFloat 500%float)]),
       w').
Proof.
  refine (proj1 (execute_code_normal_exit plain box (PStr hello) (PList [])
                   prepared
                   (set_files {[ "/tmp/execution_0/main.py" := hello ]} prepared)
                   (set_next_pid 1
                      (set_procs {[ 0%nat := Running ]}
                         (set_files {[ "/tmp/execution_0/main.py" := hello ]}
                            prepared)))
                   (mkPopen 0 (child_argv plain box) "/tmp/execution_0"
                      (child_env box ∅))
                   0 ("hi" ++ nl) "" _ _)).
  - econstructor; vm_compute; reflexivity.
  - vm_compute; reflexivity.
Defined.

(** C3 as stated fails.  The child of [garbage] ends before the
    deadline with exit status 0, which is the status collected for it,
    and yet the result reports a failure with exit code -1, because its
    output is not valid text and [subprocess.run] raises.  The child of
    [orphan] ends at once with exit status 0 as well, and the result is
    the one of a timeout, because the process it started holds the
    pipes open until the deadline. *)
Lemma exit_in_time_is_not_enough :
  let w3 src := set_next_pid 1
                  (set_procs {[ 0%nat := Running ]}
                     (set_files {[ "/tmp/execution_0/main.py" := src ]} prepared)) in
  (child_run plain (w3 garbage) 0 (child_argv plain box) "/tmp/execution_0"
     (child_env box ∅) 30 = ExitedUnread 0 not_utf8 /\
   exists w',
     execute_code plain box (PStr garbage) (PList []) prepared
     = (Ok (PDict [("success", PBool false);
                   ("stdout", PStr "");
                   ("stderr", PStr ("Execution error: " ++ exc_msg not_utf8));
                   ("exit_code", PInt (-1));
                   ("execution_time", PInt 0)]),
        w') /\
     ended w' !! 0%nat = Some 0)
  /\ (exists e,
        child_run plain (w3 orphan) 0 (child_argv plain box) "/tmp/execution_0"
          (child_env box ∅) 30 = ExitedUnread 0 e /\
        exists w',
          execute_code plain box (PStr orphan) (PList []) prepared
          = (Ok (PDict [("success", PBool false);
                        ("stdout", PStr "");
                        ("stderr", PStr "Execution timed out after 30 seconds");
                        ("exit_code", PInt (-1));
                        ("execution_time", PInt 30000)]),
             w') /\
          ended w' !! 0%nat = Some 0).
Proof.
  cbv zeta. split.
  - split; [vm_compute; reflexivity|].
    eexists. split; vm_compute; reflexivity.
  - eexists. split; [vm_compute; reflexivity|].
    eexists. split; vm_compute; reflexivity.
Qed.





(** C8 as stated fails: the program run twice on the same request with
    the same environment variables, the second time in the world the
    first run left, prints a different [stdout], because each run gets a
    workspace of its own and the child is started inside it. *)
Lemma fresh_workspace_changes_stdout :
  let w1 := start [] (request where_am_i) in
  let w2 := set_stdin (stdin_data w1) (main plain w1).2 in
  environ w2 = environ w1 /\ stdin_data w2 = stdin_data w1 /\
  stdin_tty w2 = stdin_tty w1 /\ dirs w2 = dirs w1 /\ files w2 = files w1 /\
  procs w2 = procs w1 /\
  exists r1 r2,
    stdout (main plain w1).2 = [r1] /\
    stdout (main plain w2).2 = [r1; r2] /\
    verdict r1 <> verdict r2.
Proof.
  cbv zeta. repeat (split; [vm_compute; reflexivity|]).
  do 2 eexists. split; [vm_compute; reflexivity|].
  split; [vm_compute; reflexivity|].
  intros H. vm_compute in H. discriminate H.
Qed.

(** C8 (as amended) on the platform [plain]: two runs of [hello] at
    different times agree on the verdict and differ in the execution
    time. *)
Lemma same_course_same_verdict_witness :
  exists r1 r2,
    (execute_code plain box (PStr hello) PNone prepared).1 = Ok r1 /\
    (execute_code plain box (PStr hello) (PList []) prepared_later).1 = Ok r2 /\
    verdict r1 = verdict r2 /\
    dict_lookup "execution_time" (match r1 with PDict d => d | _ => [] end)
    <> dict_lookup "execution_time" (match r2 with PDict d => d | _ => [] end).
Proof.
  do 2 eexists. split; [vm_compute; reflexivity|].
  split; [vm_compute; reflexivity|].
  split.
  - eapply (same_course_same_verdict plain box box (PStr hello) PNone (PList [])
              prepared prepared_later);
      vm_compute; reflexivity.
  - intros H. vm_compute in H. discriminate H.
Defined.

(** C5 on the platform [plain]: the request [{}]. *)
Lemma no_code_no_execution_witness :
  exists w',
    main plain (start [] "{}") = (Ok tt, w') /\
    stdout w' = [PDict [("success", PBool false);
                        ("error", PStr "No code provided")]] /\
    dirs w' = ∅ /\ next_pid w' = 0%nat.
Proof.
  destruct (no_code_no_execution plain (start [] "{}")
              (set_stdin (Ok "") (start [] "{}")) [])
    as (w' & H1 & H2 & H3 & _ & _ & _ & H7).
  - vm_compute; reflexivity.
  - left; reflexivity.
  - exists w'. split; [exact H1|]. split; [exact H2|]. split; [exact H3|exact H7].
Defined.

(** C6 on the platform [plain]: a terminal, blank input, a text that
    is not JSON, and a JSON array. *)
Lemma decoding_is_total_witness :
  (exists w1 w',
     read_request plain (at_terminal []) = (Ok (PDict []), w1) /\
     main plain (at_terminal []) = (Ok tt, w') /\
     stdout w' = [PDict [("success", PBool false);
                         ("error", PStr "No code provided")]])
  /\ (exists w1 w',
     read_request plain (start [] "  ") = (Ok (PDict []), w1) /\
     main plain (start [] "  ") = (Ok tt, w') /\
     stdout w' = [PDict [("success", PBool false);
                         ("error", PStr "No code provided")]])
  /\ (exists w',
        main plain (start [] "print('hi')") = (Ok tt, w') /\
        stdout w' = [PDict [("success", PBool false);
                            ("error", PStr ("Executor error: Expecting value: "
                                            ++ "line 1 column 1 (char 0)"))]] /\
        dirs w' = ∅ /\ next_pid w' = 0%nat)
  /\ (exists w',
        main plain (start [] "[]") = (Ok tt, w') /\
        stdout w' = [PDict [("success", PBool false);
                            ("error", PStr ("Executor error: 'list' object has "
                                            ++ "no attribute 'get'"))]]).
Proof.
  split; [|split; [|split]].
  - apply (proj1 (decoding_is_total plain (at_terminal []))).
    left. reflexivity.
  - apply (proj1 (decoding_is_total plain (start [] "  "))).
    right. exists "  ". repeat split.
  - destruct (proj1 (proj2 (decoding_is_total plain (start [] "print('hi')")))
                "print('hi')"
                (Exn "JSONDecodeError" "Expecting value: line 1 column 1 (char 0)"))
      as (w' & H1 & H2 & H3 & _ & _ & _ & H7);
      [reflexivity | reflexivity | discriminate | reflexivity |].
    exists w'. split; [exact H1|]. split; [exact H2|]. split; [exact H3|exact H7].
  - destruct (proj1 (proj2 (proj2 (decoding_is_total plain (start [] "[]"))))
                "[]" (PList []))
      as (w' & H1 & H2 & _);
      [reflexivity | reflexivity | discriminate | reflexivity | discriminate |].
    exists w'. split; [exact H1|exact H2].
Defined.


(** C10 as stated fails: with [EXECUTION_TIMEOUT] set to a text that
    is not an integer and an empty request, the constructor is never
    reached, and the message is "No code provided", not "Executor
    error: ...". *)
Lemma no_code_hides_bad_timeout :
  let w := start [("EXECUTION_TIMEOUT", "abc")] "" in
  environ w !! "EXECUTION_TIMEOUT" = Some "abc" /\
  py_int (int_max_str_digits plain) "abc" = Raise bad_abc /\
  stdout (main plain w).2
  = [PDict [("success", PBool false); ("error", PStr "No code provided")]] /\
  stdout (main plain w).2 <> [executor_error_message bad_abc].
Proof.
  cbv zeta. split; [vm_compute; reflexivity|].
  split; [vm_compute; reflexivity|].
  split; [vm_compute; reflexivity|].
  intros H. vm_compute in H. discriminate H.
Qed.

(** C10 (as amended) on the platform [plain]: a request with code
    under [EXECUTION_TIMEOUT=abc], and the defaults of the constructor. *)
Lemma bad_timeout_is_reported_witness :
  (exists w',
     main plain (start [("EXECUTION_TIMEOUT", "abc")] (request hello)) = (Ok tt, w') /\
     stdout w' = [PDict [("success", PBool false);
                         ("error", PStr ("Executor error: invalid literal for "
                                         ++ "int() with base 10: 'abc'"))]] /\
     dirs w' = ∅ /\ next_pid w' = 0%nat)
  /\ timeout box = 30 /\ max_memory box = "128m".
Proof.
  split.
  - destruct (proj1 (bad_timeout_is_reported plain
                       (start [("EXECUTION_TIMEOUT", "abc")] (request hello)))
                "abc" bad_abc)
      as (m & w' & H1 & H2 & H3 & _ & _ & _ & H7 & Hm);
      [vm_compute; reflexivity | vm_compute; reflexivity |].
    rewrite (Hm [("code", PStr hello)]
               (set_stdin (Ok "")
                  (start [("EXECUTION_TIMEOUT", "abc")] (request hello)))
               (PStr hello)) in H2;
      [| vm_compute; reflexivity | reflexivity | reflexivity].
    exists w'. split; [exact H1|]. split; [exact H2|]. split; [exact H3|exact H7].
  - destruct (proj2 (bad_timeout_is_reported plain (start [] "")) box prepared)
      as (_ & _ & Ht & Hm); [vm_compute; reflexivity|].
    split; [apply Ht | apply Hm]; vm_compute; reflexivity.
Defined.

(** * Further properties of the program *)

(** ** What the operations touch *)

Section Footprint.
Variable P : Platform.

Lemma open_w_cases p w r w1 :
  open_w P p w = (r, w1) ->
  (exists e, r = Raise e /\ w1 = w)
  \/ (r = Ok (path_str p) /\ parent p ∈ dirs w /\
      w1 = set_files (<[ path_str p := "" ]> (files w)) w).
Proof.
  unfold open_w. destruct (bool_decide (parent p ∈ dirs w)) eqn:Hd.
  - apply bool_decide_eq_true in Hd.
    destruct (open_fault P w (path_str p)); intros H; inversion H; subst; eauto.
  - intros H; inversion H; subst; eauto.
Qed.

(** Opening a file in a directory that does not exist. *)
Lemma open_w_missing p w :
  parent p ∉ dirs w ->
  open_w P p w
  = (Raise (Exn "FileNotFoundError"
       ("[Errno 2] No such file or directory: " ++ py_repr (path_str p))), w).
Proof.
  intros H. unfold open_w.
  destruct (bool_decide (parent p ∈ dirs w)) eqn:Hd; [|reflexivity].
  apply bool_decide_eq_true in Hd. contradiction.
Qed.

Lemma file_write_cases f v w r w1 :
  file_write P f v w = (r, w1) ->
  (exists e, r = Raise e /\ w1 = w)
  \/ (exists s, v = PStr s /\ r = Ok tt /\
                w1 = set_files (<[ f := s ]> (files w)) w).
Proof.
  unfold file_write. destruct v; try solve [intros H; inversion H; subst; eauto].
  destruct (write_fault P w f s); intros H; inversion H; subst; eauto.
Qed.


(** [subprocess.run] leaves the environment and the channels alone,
    starts at most one child and leaves none, and does not block. *)
Lemma subprocess_run_footprint argv dir e t w r w' :
  subprocess_run P argv dir e t w = (r, w') -> touched_by w w'.
Proof.
  destruct (Popen P argv dir e w) as [[pr|x] w3] eqn:Hp.
  2:{ rewrite (subprocess_run_spawn_fault P _ _ _ _ _ _ _ Hp).
      unfold Popen in Hp. destruct (spawn_fault P w argv dir e); [|discriminate].
      injection Hp as _ <-. intros H; injection H as _ <-.
      split; [repeat split | split; [left; split; reflexivity | reflexivity]]. }
  rewrite (subprocess_run_started P _ _ _ _ _ _ _ Hp).
  destruct (Popen_Ok P _ _ _ _ _ _ Hp) as (Hpid & _ & _ & _ & ->).
  intros H; injection H as _ <-.
  split; [repeat split|]. split; [|reflexivity]. right. cbn. rewrite Hpid.
  split; [apply delete_insert_eq | reflexivity].
Qed.

Lemma supervised_footprint self e t0 w r w' :
  supervised P self e t0 w = (r, w') -> touched_by w w'.
Proof.
  unfold supervised, try_except, bind.
  destruct (subprocess_run P (child_argv P self) (temp_dir self) e (timeout self) w)
    as [[cp|x] w1] eqn:Hr; apply subprocess_run_footprint in Hr; cbn.
  - intros H; injection H as _ <-. exact Hr.
  - destruct (except_TimeoutExpired x); cbn; intros H; injection H as _ <-; exact Hr.
Qed.

(** The results of the supervised run have the form of a result. *)
Lemma supervised_result self e t0 w res w' :
  supervised P self e t0 w = (Ok res, w') -> is_result res.
Proof.
  unfold supervised, try_except, bind.
  destruct (subprocess_run P (child_argv P self) (temp_dir self) e (timeout self) w)
    as [[cp|x] w1]; cbn.
  - intros H; injection H as <- _.
    exists (returncode cp =? 0)%Z, (cp_stdout cp), (cp_stderr cp), (returncode cp).
    eexists. split; [reflexivity|]. split; [reflexivity|]. left; eauto.
  - destruct (except_TimeoutExpired x); cbn; [|discriminate].
    intros H; injection H as <- _.
    exists false, "", ("Execution timed out after " ++ py_str_int (timeout self)
                       ++ " seconds"), (-1).
    eexists. split; [reflexivity|]. split; [reflexivity|]. right; eauto.
Qed.

Lemma error_result_is_result e : is_result (error_result e).
Proof.
  exists false, "", ("Execution error: " ++ exc_msg e), (-1). eexists.
  split; [reflexivity|]. split; [reflexivity|]. right; eauto.
Qed.

Lemma attempt_footprint self code w r w' :
  attempt P self code w = (r, w') -> touched_by w w'.
Proof.
  unfold attempt, bind.
  destruct (open_w P (code_file self) w) as [[f|x] w1] eqn:H1;
    destruct (open_w_cases _ _ _ _ H1) as [(x0 & Hx & ->) | (Hf & _ & ->)];
    try discriminate.
  2:{ intros H; injection H as _ <-.
      split; [repeat split | split; [left; split; reflexivity | reflexivity]]. }
  injection Hf as ->.
  destruct (file_write P (path_str (code_file self)) code _) as [[[]|x] w2] eqn:H2;
    destruct (file_write_cases _ _ _ _ _ H2) as [(x0 & Hx & ->) | (s & _ & Hr & ->)];
    try discriminate.
  2:{ intros H; injection H as _ <-.
      split; [repeat split | split; [left; split; reflexivity | reflexivity]]. }
  unfold environ_copy, time_time. intros H.
  exact (supervised_footprint _ _ _ _ _ _ H).
Qed.

Lemma attempt_result self code w res w' :
  attempt P self code w = (Ok res, w') -> is_result res.
Proof.
  unfold attempt, bind.
  destruct (open_w P (code_file self) w) as [[f|x] w1]; [|discriminate].
  destruct (file_write P f code w1) as [[[]|x] w2]; [|discriminate].
  unfold environ_copy, time_time. apply supervised_result.
Qed.

(** The guarded attempt: its result has the form of a result, and it
    leaves what the attempt leaves. *)
Lemma guarded_footprint self code w res w' :
  guarded P self code w = (Ok res, w') ->
  is_result res /\ touched_by w w'.
Proof.
  unfold guarded, try_except.
  destruct (attempt P self code w) as [[r|x] w1] eqn:Ha; cbn;
    intros H; injection H as <- <-.
  - split; [exact (attempt_result _ _ _ _ _ Ha) | exact (attempt_footprint _ _ _ _ _ Ha)].
  - split; [apply error_result_is_result | exact (attempt_footprint _ _ _ _ _ Ha)].
Qed.

(** A path below a directory has the directory as a prefix. *)
Lemma prefix_app (s t : string) : String.prefix s (s ++ t) = true.
Proof.
  induction s as [|c s IH]; [now destruct t|].
  change (String.prefix (String c s) (String c (s ++ t)) = true).
  cbn [String.prefix].
  destruct (Ascii.ascii_dec c c); [exact IH|contradiction].
Qed.

Lemma append_assoc (a b c : string) : (a ++ b) ++ c = a ++ (b ++ c).
Proof.
  induction a as [|x a IH]; [reflexivity|].
  change (String x ((a ++ b) ++ c) = String x (a ++ (b ++ c))).
  now rewrite IH.
Qed.

Lemma code_file_below self :
  in_tree (temp_dir self) (path_str (code_file self)) = true.
Proof.
  unfold in_tree, path_str, code_file, path_join. cbn [parent name].
  replace (temp_dir self ++ "/" ++ "main.py")
    with ((temp_dir self ++ "/") ++ "main.py") by apply append_assoc.
  rewrite prefix_app. apply orb_true_r.
Qed.

(** What [cleanup] does to directories and files. *)
Lemma cleaned_outside self w p :
  in_tree (temp_dir self) p = false ->
  (p ∈ dirs (cleaned P self w) <-> p ∈ dirs w)
  /\ files (cleaned P self w) !! p = files w !! p.
Proof.
  intros Hp. unfold cleaned, removed.
  destruct (rmtree_result P w (temp_dir self));
    rewrite pruned_dirs, pruned_files, Hp; cbn; intuition congruence.
Qed.

Lemma cleaned_gone self w p :
  rmtree_result P w (temp_dir self) = RmDone ->
  in_tree (temp_dir self) p = true ->
  (p ∉ dirs (cleaned P self w)) /\ files (cleaned P self w) !! p = None.
Proof.
  intros Hr Hp. unfold cleaned, removed. rewrite Hr.
  rewrite pruned_dirs, pruned_files, Hp. cbn. intuition congruence.
Qed.

End Footprint.

(** ** The constructor *)

Section Constructor.
Variable P : Platform.

(** A successful [mkdtemp] creates one directory that did not exist,
    named after one of the names drawn, and touches nothing else but the
    count of draws. *)
Lemma mkdtemp_loop_Ok dir prefix names w d w' :
  mkdtemp_loop P dir prefix names w = (Ok d, w') ->
  (exists n, n ∈ names /\ d = path_join dir (prefix ++ n)) /\
  (d ∉ dirs w) /\ files w !! d = None /\
  dirs w' = {[ d ]} ∪ dirs w /\ files w' = files w /\
  environ w' = environ w /\ stdin_tty w' = stdin_tty w /\
  stdin_data w' = stdin_data w /\ stdout w' = stdout w /\
  procs w' = procs w /\ next_pid w' = next_pid w.
Proof.
  revert w. induction names as [|n names IH]; intros w; cbn; [discriminate|].
  destruct (bool_decide (path_join dir (prefix ++ n) ∈ dirs w)) eqn:Hd; cbn.
  { intros H. destruct (IH _ H) as ((m & Hm & ->) & rest).
    split; [exists m; split; [now right | reflexivity] | exact rest]. }
  destruct (bool_decide (is_Some (files w !! path_join dir (prefix ++ n)))) eqn:Hf; cbn.
  { intros H. destruct (IH _ H) as ((m & Hm & ->) & rest).
    split; [exists m; split; [now right | reflexivity] | exact rest]. }
  apply bool_decide_eq_false in Hd. apply bool_decide_eq_false in Hf.
  destruct (mkdir_fault P w _); [discriminate|].
  intros H; injection H as <- <-. cbn.
  split; [exists n; split; [now left | reflexivity]|].
  split; [exact Hd|].
  split; [now apply eq_None_not_Some|].
  repeat split.
Qed.

Lemma init_Ok w self w' :
  __init__ P w = (Ok self, w') ->
  mkdtemp P "execution_" w = (Ok (temp_dir self), w') /\
  py_int (int_max_str_digits P)
    (default "30" (environ w !! "EXECUTION_TIMEOUT")) = Ok (timeout self) /\
  max_memory self = default "128m" (environ w !! "MAX_MEMORY").
Proof.
  rewrite init_cases.
  destruct (py_int (int_max_str_digits P)
              (default "30" (environ w !! "EXECUTION_TIMEOUT"))) as [t|x];
    [|discriminate].
  destruct (mkdtemp P "execution_" w) as [[d|x] w1]; [|discriminate].
  intros H; injection H as <- <-. cbn. repeat split.
Qed.

End Constructor.


(** ** The executor, on every path *)


(** X3.  On every path [execute_code] starts at most one child, and no
    child that it started is in the table of processes when it returns:
    the table is what it was, without the entry of the new child. *)
Theorem execute_code_leaves_no_child (P : Platform) (self : CodeExecutor)
    (code test_cases : pyval) (w : World) :
  let w' := (execute_code P self code test_cases w).2 in
  (procs w' = procs w /\ next_pid w' = next_pid w)
  \/ (procs w' = delete (next_pid w) (procs w) /\ next_pid w' = S (next_pid w)).
Proof.
  cbv zeta.
  destruct (guarded_total P self code w) as (res & w1 & Hg).
  rewrite (execute_code_guarded P _ _ _ _ _ _ Hg). cbn [snd].
  destruct (guarded_footprint P _ _ _ _ _ Hg) as (_ & _ & Hc & _).
  destruct (cleaned_frame P self w1) as (_ & _ & -> & -> & _).
  exact Hc.
Qed.

(** The file system and the standard input that the attempt leaves:
    when no child was started, the ones it found, but for the source
    file; when a child was started, the ones the child's run left. *)
Lemma guarded_file_system (P : Platform) (self : CodeExecutor) (code : pyval)
    (w : World) (res : pyval) (w1 : World) :
  guarded P self code w = (Ok res, w1) ->
  (next_pid w1 = next_pid w /\ dirs w1 = dirs w /\
   stdin_data w1 = stdin_data w /\
   forall p, p <> path_str (code_file self) -> files w1 !! p = files w !! p)
  \/ (next_pid w1 = S (next_pid w) /\
      exists pr w2 w3,
        started P self code w pr w2 w3 /\
        let left := child_leaves P w3 (pid pr) (args pr) (cwd pr) (env pr)
                      (timeout self) in
        dirs w1 = left_dirs left /\ files w1 = left_files left /\
        stdin_data w1 = left_stdin left).
Proof.
  intros Hg.
  assert (Hw : exists r, attempt P self code w = (r, w1)).
  { unfold guarded, try_except in Hg.
    destruct (attempt P self code w) as [[r|x] w0]; cbn in Hg;
      injection Hg as _ <-; eauto. }
  destruct Hw as [r Ha]. clear Hg.
  destruct (open_w P (code_file self) w) as [[f|x] w0] eqn:H1.
  2:{ rewrite (attempt_open_fault P _ _ _ _ _ H1) in Ha. injection Ha as _ <-.
      destruct (open_w_cases P _ _ _ _ H1) as [(x0 & _ & ->) | (Hf & _)];
        [|discriminate]. left. repeat split. }
  destruct (open_w_cases P _ _ _ _ H1) as [(x0 & Hx & _) | (Hf & _ & Hw0)];
    [discriminate|]. injection Hf as Hf.
  destruct (file_write P f code w0) as [[[]|x] w2] eqn:H2.
  2:{ rewrite (attempt_write_fault P _ _ _ _ _ _ _ H1 H2) in Ha.
      injection Ha as _ <-.
      destruct (file_write_cases P _ _ _ _ _ H2) as [(x0 & _ & ->) | (s & _ & Hr & _)];
        [|discriminate]. subst w0. left. cbn. repeat split.
      intros p Hp. now rewrite lookup_insert_ne. }
  rewrite (attempt_written P _ _ _ _ _ _ H1 H2) in Ha.
  assert (F : next_pid w2 = next_pid w /\ dirs w2 = dirs w /\
              stdin_data w2 = stdin_data w /\
              forall p, p <> path_str (code_file self) -> files w2 !! p = files w !! p).
  { destruct (file_write_cases P _ _ _ _ _ H2) as [(x0 & Hx & _) | (s & _ & _ & ->)];
      [discriminate|]. subst w0 f. cbn. repeat split.
    intros p Hp. now rewrite !lookup_insert_ne. }
  destruct F as (F1 & F2 & F3 & F4).
  destruct (Popen P (child_argv P self) (temp_dir self)
              (child_env self (environ w2)) w2) as [[pr|x] w3] eqn:H3.
  2:{ rewrite (supervised_spawn_fault P _ _ _ _ _ _ H3) in Ha.
      assert (w3 = w2) as ->.
      { unfold Popen in H3. destruct (spawn_fault P w2 _ _ _); [|discriminate].
        now injection H3 as _ <-. }
      left. destruct (except_TimeoutExpired x); injection Ha as _ <-;
        repeat split; assumption. }
  rewrite (supervised_started P _ _ _ _ _ _ H3) in Ha. cbv zeta in Ha.
  injection Ha as _ <-. right.
  destruct (Popen_Ok P _ _ _ _ _ _ H3) as (_ & _ & _ & _ & Hw3).
  split; [rewrite Hw3; cbn; now rewrite F1|].
  exists pr, w2, w3. split; [exact (started_intro P _ _ _ _ _ _ _ _ H1 H2 H3)|].
  cbv zeta. repeat split.
Qed.

(** [execute_code] never blocks: every [wait] it comes to is for a
    child that has ended. *)
Lemma execute_code_not_blocked (P : Platform) (self : CodeExecutor)
    (code test_cases : pyval) (w : World) :
  blocked (execute_code P self code test_cases w).2 = blocked w.
Proof.
  destruct (guarded_total P self code w) as (res & w1 & Hg).
  rewrite (execute_code_guarded P _ _ _ _ _ _ Hg). cbn [snd].
  destruct (guarded_footprint P _ _ _ _ _ Hg) as (_ & _ & _ & <-).
  apply cleaned_ghosts.
Qed.

(** X4.  [execute_code] itself changes nothing outside its workspace.
    It leaves the environment and the output channel as they were.  When
    it has started no child, standard input is as it was, no directory
    outside the workspace has appeared or disappeared and every file
    outside it has kept its content; when it has started a child,
    standard input (which the child inherits) and the directories and
    files outside the workspace are on return exactly as the child's run
    left them. *)
Theorem execute_code_confined (P : Platform) (self : CodeExecutor)
    (code test_cases : pyval) (w : World) :
  let w' := (execute_code P self code test_cases w).2 in
  environ w' = environ w /\ stdout w' = stdout w /\ draws w' = draws w /\
  ((next_pid w' = next_pid w /\
    stdin_data w' = stdin_data w /\
    forall p, in_tree (temp_dir self) p = false ->
              (p ∈ dirs w' <-> p ∈ dirs w) /\ files w' !! p = files w !! p)
   \/ (next_pid w' = S (next_pid w) /\
       exists pr w2 w3,
         started P self code w pr w2 w3 /\
         let left := child_leaves P w3 (pid pr) (args pr) (cwd pr) (env pr)
                       (timeout self) in
         stdin_data w' = left_stdin left /\
         forall p, in_tree (temp_dir self) p = false ->
                   (p ∈ dirs w' <-> p ∈ left_dirs left) /\
                   files w' !! p = left_files left !! p)).
Proof.
  cbv zeta.
  destruct (guarded_total P self code w) as (res & w1 & Hg).
  rewrite (execute_code_guarded P _ _ _ _ _ _ Hg). cbn [snd].
  destruct (guarded_footprint P _ _ _ _ _ Hg)
    as (_ & (a1 & _ & a4 & a5) & _).
  destruct (cleaned_frame P self w1) as (b1 & b2 & _ & b4 & b5 & b6).
  rewrite b1, b2, b4, b5, b6.
  repeat (split; [assumption|]).
  destruct (guarded_file_system P _ _ _ _ _ Hg)
    as [(F1 & F2 & F3 & F4) | (F1 & pr & w2 & w3 & Hs & F2 & F3 & F4)].
  - left. split; [exact F1|]. split; [exact F3|]. intros p Hp.
    destruct (cleaned_outside P self w1 p Hp) as [-> ->]. rewrite F2.
    split; [reflexivity|]. apply F4. intros ->.
    rewrite code_file_below in Hp. discriminate.
  - right. split; [exact F1|]. exists pr, w2, w3. split; [exact Hs|].
    split; [exact F4|].
    intros p Hp. destruct (cleaned_outside P self w1 p Hp) as [-> ->].
    now rewrite F2, F3.
Qed.

(** X5.  What the child is asked.  When the workspace exists, the code
    is a string and nothing fails before the launch, the verdict of
    [execute_code] is the one that goes with what the platform answers
    for a child started with the command [[sys.executable,
    <workspace>/main.py]], in the workspace as working directory, with
    the program's environment in which PYTHONPATH is the workspace,
    under the executor's timeout, in a world where main.py holds the
    code. *)
Theorem child_is_given (P : Platform) (self : CodeExecutor) (s : string)
    (test_cases : pyval) (w : World) :
  let path := temp_dir self ++ "/main.py" in
  let w1 := set_files (<[ path := "" ]> (files w)) w in
  let w2 := set_files (<[ path := s ]> (files w1)) w1 in
  let argv := [sys_executable P; path] in
  let child_environment := <[ "PYTHONPATH" := temp_dir self ]> (environ w) in
  let w3 := set_next_pid (S (next_pid w))
              (set_procs (<[ next_pid w := Running ]> (procs w)) w2) in
  temp_dir self ∈ dirs w ->
  open_fault P w path = None ->
  write_fault P w1 path s = None ->
  spawn_fault P w2 argv (temp_dir self) child_environment = None ->
  exists res w',
    execute_code P self (PStr s) test_cases w = (Ok res, w') /\
    verdict res
    = verdict_of (timeout self)
        (match child_run P w3 (next_pid w) argv (temp_dir self)
                 child_environment (timeout self) with
         | Finished rc out err => Exited rc out err
         | Overrun => TimedOut
         | ExitedUnread _ e | CommError e => fault_course e
         end).
Proof.
  cbv zeta. intros Hd Ho Hw Hs.
  destruct (verdict_by_course P self (PStr s) test_cases w) as (res & w' & He & Hv).
  exists res, w'. split; [exact He|]. rewrite Hv. f_equal.
  unfold course_of, open_w. cbn [parent code_file].
  rewrite (bool_decide_eq_true_2 _ Hd).
  change (path_str (code_file self)) with (temp_dir self ++ "/main.py").
  rewrite Ho. unfold file_write. rewrite Hw.
  unfold Popen, child_argv, child_env.
  change (path_str (code_file self)) with (temp_dir self ++ "/main.py").
  cbn [environ set_files]. rewrite Hs. reflexivity.
Qed.


(** X7.  An executor serves once.  On a platform where [rmtree]
    removes the workspace when asked, a second call of [execute_code] on
    the same executor, whatever the code, finds the workspace gone: it
    returns the error result with the FileNotFoundError of [open], and
    starts no child. *)
Theorem second_call_finds_no_workspace (P : Platform) (self : CodeExecutor)
    (code1 code2 tc1 tc2 : pyval) (w : World) :
  (forall w0, rmtree_result P w0 (temp_dir self) = RmDone) ->
  let w1 := (execute_code P self code1 tc1 w).2 in
  exists w2,
    execute_code P self code2 tc2 w1
    = (Ok (PDict [("success", PBool false);
                  ("stdout", PStr "");
                  ("stderr", PStr ("Execution error: [Errno 2] No such file or "
                                   ++ "directory: "
                                   ++ py_repr (temp_dir self ++ "/main.py")));
                  ("exit_code", PInt (-1));
                  ("execution_time", PInt 0)]),
       w2)
    /\ next_pid w2 = next_pid w1 /\ procs w2 = procs w1.
Proof.
  intros Hrm. cbv zeta.
  destruct (guarded_total P self code1 w) as (res & wg & Hg).
  rewrite (execute_code_guarded P _ _ _ _ _ _ Hg). cbn [snd].
  assert (Hgone : temp_dir self ∉ dirs (cleaned P self wg)).
  { exact (proj1 (cleaned_gone P self wg _ (Hrm wg) (in_tree_root _))). }
  pose proof (open_w_missing P (code_file self) _ Hgone) as H1.
  pose proof (attempt_open_fault P _ code2 _ _ _ H1) as Ha.
  pose proof (guarded_fault P _ _ _ _ _ Ha) as Hg2.
  eexists. split; [exact (execute_code_guarded P _ _ tc2 _ _ _ Hg2)|].
  destruct (cleaned_frame P self (cleaned P self wg)) as (_ & _ & -> & -> & _).
  split; reflexivity.
Qed.

(** ** The whole program, on every path *)

Lemma set_draws_same w : set_draws (draws w) w = w.
Proof. now destruct w. Qed.

(** The ways [main] can go: it prints one message [m] on top of a world
    [wf], which is the world after reading the request with at most the
    count of draws moved and [m] a top-level error, or the world that
    [execute_code] left and [m] its result. *)
Lemma main_cases (P : Platform) (w : World) :
  exists w1 m wf,
    main P w = (Ok tt, set_stdout (stdout wf ++ [m]) wf) /\
    (w1 = w \/ w1 = set_stdin (Ok "") w) /\
    ((is_top_level_error m /\ exists n, wf = set_draws n w1)
     \/ (exists self w2 code tc,
           __init__ P w1 = (Ok self, w2) /\
           execute_code P self code tc w2 = (Ok m, wf))).
Proof.
  destruct (read_request P w) as [[v|x] w1] eqn:Hr;
    pose proof (read_request_frame P _ _ _ Hr) as Hw.
  2:{ exists w1. do 2 eexists. split; [exact (main_read_fault P _ _ _ Hr)|].
      split; [exact Hw|]. left. split; [eexists; reflexivity|].
      exists (draws w1). symmetry; apply set_draws_same. }
  assert (Hnd : (forall d, v <> PDict d) \/ exists d, v = PDict d).
  { destruct v; try (left; intros; discriminate). right; eauto. }
  destruct Hnd as [Hnd | [d ->]].
  { exists w1. do 2 eexists. split; [exact (main_not_dict P _ _ _ Hr Hnd)|].
    split; [exact Hw|]. left. split; [eexists; reflexivity|].
    exists (draws w1). symmetry; apply set_draws_same. }
  destruct (truthy (code_of d)) eqn:Hc.
  2:{ exists w1. do 2 eexists. split; [exact (main_no_code P _ _ _ Hr Hc)|].
      split; [exact Hw|]. left. split; [eexists; reflexivity|].
      exists (draws w1). symmetry; apply set_draws_same. }
  destruct (__init__ P w1) as [[self|x] w2] eqn:Hi.
  2:{ exists w1. do 2 eexists.
      split; [exact (main_init_fault P _ _ _ _ _ Hr Hc Hi)|].
      split; [exact Hw|]. left. split; [eexists; reflexivity|].
      exact (init_Raise P _ _ _ Hi). }
  destruct (guarded_total P self (code_of d) w2) as (res & wg & Hg).
  pose proof (execute_code_guarded P _ _ (test_cases_of d) _ _ _ Hg) as He.
  exists w1. do 2 eexists.
  split; [exact (main_executes P _ _ _ _ _ _ _ Hr Hc Hi He)|].
  split; [exact Hw|]. right. exists self, w2, (code_of d), (test_cases_of d).
  split; [exact Hi | exact He].
Qed.


(** X9.  [main] starts at most one child, and leaves no child that it
    started in the table of processes: on return the table is what it
    was, without the entry of the new child. *)
Theorem main_leaves_no_child (P : Platform) (w : World) :
  let w' := (main P w).2 in
  (procs w' = procs w /\ next_pid w' = next_pid w)
  \/ (procs w' = delete (next_pid w) (procs w) /\ next_pid w' = S (next_pid w)).
Proof.
  cbv zeta.
  destruct (main_cases P w) as (w1 & m & wf & Hm & Hw & Hcase).
  rewrite Hm. cbn [snd procs next_pid set_stdout].
  assert (H1 : procs w1 = procs w /\ next_pid w1 = next_pid w)
    by (destruct Hw as [-> | ->]; split; reflexivity).
  destruct H1 as [H1 H2].
  destruct Hcase as [(_ & n & ->) | (self & w2 & code & tc & Hi & He)].
  - left. cbn. now rewrite H1, H2.
  - destruct (init_Ok P _ _ _ Hi) as (Hmk & _).
    unfold mkdtemp in Hmk. destruct (gettempdir P w1) as [dir|x]; [|discriminate].
    destruct (mkdtemp_loop_Ok P _ _ _ _ _ _ Hmk)
      as (_ & _ & _ & _ & _ & _ & _ & _ & _ & a9 & a10).
    destruct (guarded_total P self code w2) as (res & wg & Hg).
    rewrite (execute_code_guarded P _ _ tc _ _ _ Hg) in He.
    injection He as _ <-.
    destruct (guarded_footprint P _ _ _ _ _ Hg) as (_ & _ & Hc & _).
    destruct (cleaned_frame P self wg) as (_ & _ & -> & -> & _).
    unfold child_gone in Hc. rewrite a9, a10, H1, H2 in Hc. exact Hc.
Qed.

(** X10.  When the request carries code and the constructor has made
    a workspace, on a platform where [rmtree] removes that workspace
    when asked, nothing of it is left when [main] returns: neither the
    directory, which this run created, nor any directory or file below
    it, whatever the child has put there. *)
Theorem main_leaves_no_workspace (P : Platform) (w w1 w2 : World)
    (d : list (string * pyval)) (self : CodeExecutor) :
  read_request P w = (Ok (PDict d), w1) ->
  truthy (default (PStr "") (dict_lookup "code" d)) = true ->
  __init__ P w1 = (Ok self, w2) ->
  (forall w0, rmtree_result P w0 (temp_dir self) = RmDone) ->
  (temp_dir self ∉ dirs w) /\
  forall p, in_tree (temp_dir self) p = true ->
            (p ∉ dirs (main P w).2) /\ files (main P w).2 !! p = None.
Proof.
  intros Hr Hc Hi Hrm. fold (code_of d) in Hc.
  assert (H1 : dirs w1 = dirs w).
  { destruct (read_request_frame P _ _ _ Hr) as [-> | ->]; reflexivity. }
  split.
  - destruct (init_Ok P _ _ _ Hi) as (Hmk & _).
    unfold mkdtemp in Hmk. destruct (gettempdir P w1) as [dir|x]; [|discriminate].
    destruct (mkdtemp_loop_Ok P _ _ _ _ _ _ Hmk) as (_ & a1 & _).
    now rewrite <- H1.
  - intros p Hp.
    destruct (guarded_total P self (code_of d) w2) as (res & wg & Hg).
    pose proof (execute_code_guarded P _ _ (test_cases_of d) _ _ _ Hg) as He.
    rewrite (main_executes P _ _ _ _ _ _ _ Hr Hc Hi He).
    cbn [snd dirs files set_stdout].
    exact (cleaned_gone P self wg p (Hrm wg) Hp).
Qed.

(** X11.  When the request is an object, the message of [main] is
    "No code provided" exactly when the code is absent or counts as
    false; any other code, a blank string included, is passed on to the
    constructor and the executor. *)
Theorem no_code_message_iff (P : Platform) (w w1 : World)
    (d : list (string * pyval)) :
  read_request P w = (Ok (PDict d), w1) ->
  exists m w',
    main P w = (Ok tt, w') /\
    stdout w' = (stdout w ++ [m])%list /\
    (m = PDict [("success", PBool false); ("error", PStr "No code provided")]
     <-> truthy (default (PStr "") (dict_lookup "code" d)) = false).
Proof.
  intros Hr.
  assert (H1 : stdout w1 = stdout w).
  { destruct (read_request_frame P _ _ _ Hr) as [-> | ->]; reflexivity. }
  fold (code_of d). destruct (truthy (code_of d)) eqn:Hc.
  2:{ do 2 eexists. split; [exact (main_no_code P _ _ _ Hr Hc)|].
      cbn. rewrite H1. split; [reflexivity|]. split; reflexivity. }
  destruct (__init__ P w1) as [[self|x] w2] eqn:Hi.
  2:{ do 2 eexists. split; [exact (main_init_fault P _ _ _ _ _ Hr Hc Hi)|].
      destruct (init_Raise P _ _ _ Hi) as [n ->]. cbn. rewrite H1.
      split; [reflexivity|]. split; intros H; discriminate H. }
  destruct (guarded_total P self (code_of d) w2) as (res & wg & Hg).
  pose proof (execute_code_guarded P _ _ (test_cases_of d) _ _ _ Hg) as He.
  do 2 eexists. split; [exact (main_executes P _ _ _ _ _ _ _ Hr Hc Hi He)|].
  destruct (guarded_footprint P _ _ _ _ _ Hg)
    as ((b & out & err & rc & t & -> & _) & (_ & _ & c4 & _) & _).
  destruct (cleaned_frame P self wg) as (_ & Hs & _).
  destruct (init_Ok P _ _ _ Hi) as (Hmk & _).
  unfold mkdtemp in Hmk. destruct (gettempdir P w1) as [dir|x]; [|discriminate].
  destruct (mkdtemp_loop_Ok P _ _ _ _ _ _ Hmk)
    as (_ & _ & _ & _ & _ & _ & _ & _ & a8 & _).
  cbn. rewrite Hs, c4, a8, H1.
  split; [reflexivity|]. split; intros H; discriminate H.
Qed.

(** ** The further properties at concrete inputs *)

(** The program [nest] makes a directory and a file below the
    workspace; both are there when the attempt ends, and the workspace,
    the directory and the file are gone when [execute_code] returns. *)
Example scenario_nest :
  let attempted := (guarded plain box (PStr nest) prepared).2 in
  let returned := (execute_code plain box (PStr nest) (PList []) prepared).2 in
  dirs attempted = {[ "/tmp/execution_0"; "/tmp/execution_0/sub" ]} /\
  files attempted !! "/tmp/execution_0/sub/x" = Some "1" /\
  dirs returned = ∅ /\ files returned = ∅.
Proof. cbv zeta. repeat split; vm_compute; reflexivity. Qed.

(** The program [litter] writes a file outside the workspace, which is
    there when [execute_code] returns. *)
Example scenario_litter :
  files (execute_code plain box (PStr litter) (PList []) prepared).2
  = {[ "/tmp/note" := "x" ]}.
Proof. vm_compute. reflexivity. Qed.

(** X5 on the platform [plain]: the child of [hello]. *)
Lemma child_is_given_witness :
  exists res w',
    execute_code plain box (PStr hello) (PList []) prepared = (Ok res, w') /\
    verdict res = [Some (PBool true); Some (PStr ("hi" ++ nl));
                   Some (PStr ""); Some (PInt 0)].
Proof.
  pose proof (child_is_given plain box hello (PList []) prepared) as H.
  cbv zeta in H.
  destruct H as (res & w' & H1 & H2).
  - apply (bool_decide_unpack _); vm_compute; exact I.
  - reflexivity.
  - reflexivity.
  - reflexivity.
  - exists res, w'. split; [exact H1|]. rewrite H2. vm_compute. reflexivity.
Defined.


(** X7 on the platform [plain]: [hello] twice on the same executor. *)
Lemma second_call_finds_no_workspace_witness :
  exists w2,
    execute_code plain box (PStr hello) (PList [])
      (execute_code plain box (PStr hello) (PList []) prepared).2
    = (Ok (PDict [("success", PBool false);
                  ("stdout", PStr "");
                  ("stderr", PStr ("Execution error: [Errno 2] No such file or "
                                   ++ "directory: '/tmp/execution_0/main.py'"));
                  ("exit_code", PInt (-1));
                  ("execution_time", PInt 0)]),
       w2)
    /\ next_pid w2 = next_pid (execute_code plain box (PStr hello) (PList []) prepared).2
    /\ procs w2 = procs (execute_code plain box (PStr hello) (PList []) prepared).2.
Proof.
  refine (second_call_finds_no_workspace plain box (PStr hello) (PStr hello)
            (PList []) (PList []) prepared _).
  intros w0; reflexivity.
Defined.

(** X10 on the platform [plain]: after a run of [nest] neither the
    directory it made below the workspace nor the file in it is left. *)
Lemma main_leaves_no_workspace_witness :
  ("/tmp/execution_0/sub" ∉ dirs (main plain (start [] (request nest))).2) /\
  files (main plain (start [] (request nest))).2 !! "/tmp/execution_0/sub/x" = None.
Proof.
  destruct (main_leaves_no_workspace plain (start [] (request nest))
              (set_stdin (Ok "") (start [] (request nest)))
              (set_dirs {[ "/tmp/execution_0" ]}
                 (set_draws 1 (set_stdin (Ok "") (start [] (request nest)))))
              [("code", PStr nest)] box) as [_ H].
  - vm_compute; reflexivity.
  - reflexivity.
  - vm_compute; reflexivity.
  - intros w0; reflexivity.
  - split.
    + exact (proj1 (H "/tmp/execution_0/sub" eq_refl)).
    + exact (proj2 (H "/tmp/execution_0/sub/x" eq_refl)).
Defined.

(** X11 on the platform [plain]: the request [hello] is not answered
    with "No code provided". *)
Lemma no_code_message_iff_witness :
  exists m w',
    main plain (start [] (request hello)) = (Ok tt, w') /\
    stdout w' = [m] /\
    (m = PDict [("success", PBool false); ("error", PStr "No code provided")]
     <-> truthy (PStr hello) = false).
Proof.
  refine (no_code_message_iff plain (start [] (request hello))
            (set_stdin (Ok "") (start [] (request hello)))
            [("code", PStr hello)] _).
  vm_compute; reflexivity.
Defined.
